(** * main.js of the JIRA popup extension: validator, URL builders,
      payload mappers, table renderer and request handling.

    The development has two parts.  The first embeds the fragment of the
    JavaScript run time that main.js relies on (primitive values, the
    Number type as IEEE binary64, the conversions ToBoolean, ToNumber and
    ToString) and then the functions of main.js themselves.  The second
    part states and proves the properties of those functions. *)

From Stdlib Require Import ZArith List String Ascii Bool Lia.
From Stdlib Require Import SpecFloat DecimalString.
Import ListNotations.

Open Scope string_scope.
Open Scope Z_scope.

Set Warnings "-register-all".

(* ================================================================= *)
(** * Part I: definitions *)
(* ================================================================= *)

(** ** Strings

    A JavaScript string is a sequence of UTF-16 code units.  The model
    uses [string]; every [ascii] stands for one code unit below 256. *)

(** The double-quote character, as a one-character string. *)
Definition dq : string := String (ascii_of_nat 34) EmptyString.

(** The line feed that ends each source line of a template literal. *)
Definition nl : string := String (ascii_of_nat 10) EmptyString.

(** [n] spaces: the indentation inside the template literals. *)
Fixpoint sp (n : nat) : string :=
  match n with
  | O => EmptyString
  | S k => String " " (sp k)
  end.

Definition code (c : ascii) : Z := Z.of_N (N_of_ascii c).

(** WhiteSpace and LineTerminator code units (ECMA-262 12.2, 12.3): TAB,
    LF, VT, FF, CR, SP and NBSP.  The same set is what the regular
    expression class \s matches. *)
Definition is_ws (c : ascii) : bool :=
  let n := code c in
  ((9 <=? n) && (n <=? 13)) || (n =? 32) || (n =? 160).

Definition is_empty (s : string) : bool :=
  match s with
  | EmptyString => true
  | String _ _ => false
  end.

Definition is_nil {A} (l : list A) : bool :=
  match l with
  | [] => true
  | _ :: _ => false
  end.

Fixpoint trim_start (s : string) : string :=
  match s with
  | EmptyString => EmptyString
  | String c r => if is_ws c then trim_start r else s
  end.

Fixpoint trim_end (s : string) : string :=
  match s with
  | EmptyString => EmptyString
  | String c r =>
      let r' := trim_end r in
      if is_ws c && is_empty r' then EmptyString else String c r'
  end.

Definition trim (s : string) : string := trim_end (trim_start s).

(** str.replace(/(\s)/gm, ""), the normalisation the test-suite applies
    before it compares markup. *)
Fixpoint strip_ws (s : string) : string :=
  match s with
  | EmptyString => EmptyString
  | String c r => if is_ws c then strip_ws r else String c (strip_ws r)
  end.

(** Array.prototype.join on an array of strings. *)
Fixpoint join (sep : string) (xs : list string) : string :=
  match xs with
  | [] => EmptyString
  | [x] => x
  | x :: rest => x ++ sep ++ join sep rest
  end.

(** [s] occurs in [t] as a contiguous substring. *)
Definition occurs_in (s t : string) : Prop :=
  exists a b, t = a ++ s ++ b.

(** ** Numbers: IEEE 754 binary64 *)

Module Num.

Definition prec : Z := 53.
Definition emax : Z := 1024.

Definition number : Type := spec_float.

Definition NaN : number := S754_nan.
Definition pos_zero : number := S754_zero false.
Definition neg_zero : number := S754_zero true.
Definition infinity : number := S754_infinity false.

(** The Number value of the non-negative rational [m / d]: the quotient
    is computed with at least 55 significant bits, the remainder gives
    the rounding location, and [binary_round_aux] rounds to nearest,
    ties to even. *)
Definition of_ratio (m d : positive) : number :=
  let s := Z.max 0 (55 + Zdigits2 (Zpos d) - Zdigits2 (Zpos m)) in
  let '(q, r) := Z.div_eucl (Z.shiftl (Zpos m) s) (Zpos d) in
  let l := if r =? 0 then loc_Exact else loc_Inexact (2 * r ?= Zpos d) in
  binary_round_aux prec emax false q (- s) l.

(** The Number value of the real [m * 10^e], for [m >= 0]. *)
Definition of_decimal (m : Z) (e : Z) : number :=
  match m with
  | Zpos p =>
      if 0 <=? e
      then binary_normalize prec emax (m * 10 ^ e) 0 false
      else of_ratio p (Z.to_pos (10 ^ (- e)))
  | _ => pos_zero
  end.

Definition of_Z (z : Z) : number := binary_normalize prec emax z 0 false.

Definition is_nan (x : number) : bool :=
  match x with
  | S754_nan => true
  | _ => false
  end.

Definition is_zero (x : number) : bool :=
  match x with
  | S754_zero _ => true
  | _ => false
  end.

(** Number::lessThan(x, y), with the undefined result for NaN read as
    false, which is what the operator < does with it. *)
Definition ltb (x y : number) : bool := SFltb x y.

(** *** StringToNumber (ECMA-262 7.1.4.1.1) *)

Definition digit_of (base : Z) (c : ascii) : option Z :=
  let n := code c in
  let v :=
    if (48 <=? n) && (n <=? 57) then n - 48
    else if (97 <=? n) && (n <=? 102) then n - 87
    else if (65 <=? n) && (n <=? 70) then n - 55
    else base in
  if v <? base then Some v else None.

(** The longest prefix of digits of [s] in [base], most significant
    first, and what follows it. *)
Fixpoint span_digits (base : Z) (s : string) : list Z * string :=
  match s with
  | EmptyString => ([], EmptyString)
  | String c r =>
      match digit_of base c with
      | Some d => let '(ds, rest) := span_digits base r in (d :: ds, rest)
      | None => ([], s)
      end
  end.

Definition digits_value (base : Z) (ds : list Z) : Z :=
  fold_left (fun acc d => acc * base + d) ds 0.

(** NonDecimalIntegerLiteral after its two-character prefix. *)
Definition parse_radix (base : Z) (s : string) : number :=
  let '(ds, rest) := span_digits base s in
  if is_nil ds || negb (is_empty rest) then NaN
  else of_Z (digits_value base ds).

(** ExponentPart_opt: [Some e] when [s] is empty ([e = 0]) or a complete
    exponent part. *)
Definition parse_exponent (s : string) : option Z :=
  match s with
  | EmptyString => Some 0
  | String c r =>
      if (c =? "e")%char || (c =? "E")%char then
        let '(neg, r') :=
          match r with
          | String "-" t => (true, t)
          | String "+" t => (false, t)
          | _ => (false, r)
          end in
        let '(ds, rest) := span_digits 10 r' in
        if is_nil ds || negb (is_empty rest) then None
        else Some (if neg then - digits_value 10 ds else digits_value 10 ds)
      else None
  end.

(** StrUnsignedDecimalLiteral. *)
Definition parse_unsigned (s : string) : number :=
  if (s =? "Infinity")%string then infinity
  else
    let '(ip, r1) := span_digits 10 s in
    let '(fp, r2) :=
      match r1 with
      | String "." t => span_digits 10 t
      | _ => ([], r1)
      end in
    if is_nil ip && is_nil fp then NaN
    else
      match parse_exponent r2 with
      | None => NaN
      | Some e =>
          of_decimal (digits_value 10 (ip ++ fp)) (e - Z.of_nat (List.length fp))
      end.

(** StrNumericLiteral. *)
Definition parse_literal (s : string) : number :=
  match s with
  | String "0" (String c r) =>
      if (c =? "x")%char || (c =? "X")%char then parse_radix 16 r
      else if (c =? "o")%char || (c =? "O")%char then parse_radix 8 r
      else if (c =? "b")%char || (c =? "B")%char then parse_radix 2 r
      else parse_unsigned s
  | String "+" r => parse_unsigned r
  | String "-" r => SFopp (parse_unsigned r)
  | _ => parse_unsigned s
  end.

Definition of_string (s : string) : number :=
  let t := trim s in
  if is_empty t then pos_zero else parse_literal t.

(** *** Number::toString (ECMA-262 6.1.6.1.20), radix 10 *)

Definition string_of_Z (z : Z) : string :=
  NilEmpty.string_of_uint (N.to_uint (Z.to_N z)).

Fixpoint zeros (n : nat) : string :=
  match n with
  | O => EmptyString
  | S k => String "0" (zeros k)
  end.

(** The number of decimal digits of [z > 0]. *)
Definition ndigits (z : Z) : Z := Z.of_nat (String.length (string_of_Z z)).

(** The positive rational [num / den] scaled by [10^(-t)], as a pair of
    integers. *)
Definition scale10 (num den t : Z) : Z * Z :=
  if 0 <=? t then (num, den * 10 ^ t) else (num * 10 ^ (- t), den).

(** The integer [n0] with [10^(n0-1) <= num/den < 10^n0]. *)
Definition magnitude (num den : Z) : Z :=
  let n := ndigits num - ndigits den in
  let '(a, b) := scale10 num den n in
  if b <=? a then n + 1 else n.

(** The [k]-digit candidates for the positive value [x = num/den]: with
    [t = n0 - k] the integers next to [x / 10^t] are tried, and one of
    them is kept when the decimal [s * 10^t] has Number value [x]; of two
    that do, the closer to [x], and the even one on a tie. *)
Definition candidate (x : number) (num den n0 k : Z) : option Z :=
  let t := n0 - k in
  let '(a, b) := scale10 num den t in
  let q := a / b in
  let r := a mod b in
  let ok s := match x, of_decimal s t with
              | S754_finite _ m1 e1, S754_finite _ m2 e2 =>
                  (m1 =? m2)%positive && (e1 =? e2)
              | _, _ => false
              end in
  let lo := ok q in
  let hi := negb (r =? 0) && ok (q + 1) in
  match lo, hi with
  | true, true =>
      match 2 * r ?= b with
      | Lt => Some q
      | Gt => Some (q + 1)
      | Eq => if Z.even q then Some q else Some (q + 1)
      end
  | true, false => Some q
  | false, true => Some (q + 1)
  | false, false => None
  end.

(** The triple [(n, k, s)] of step 5 of Number::toString: the least [k]
    is searched upwards from [k]; seventeen digits always suffice. *)
Fixpoint shortest (fuel : nat) (x : number) (num den n0 k : Z) : Z * Z * Z :=
  match candidate x num den n0 k with
  | Some s => if s =? 10 ^ k then (n0 + 1, 1, 1) else (n0, k, s)
  | None =>
      match fuel with
      | O => (n0, k, fst (scale10 num den (n0 - k)) / snd (scale10 num den (n0 - k)))
      | S f => shortest f x num den n0 (k + 1)
      end
  end.

(** Steps 6 to 12: the layout of the digits [s] around the point. *)
Definition layout (n k s : Z) : string :=
  let ds := string_of_Z s in
  if (k <=? n) && (n <=? 21) then ds ++ zeros (Z.to_nat (n - k))
  else if (0 <? n) && (n <=? 21) then
    substring 0 (Z.to_nat n) ds ++ "." ++ substring (Z.to_nat n) (Z.to_nat (k - n)) ds
  else if (-6 <? n) && (n <=? 0) then "0." ++ zeros (Z.to_nat (- n)) ++ ds
  else
    let e := n - 1 in
    let es := (if 0 <=? e then "+" else "-") ++ string_of_Z (Z.abs e) in
    if k =? 1 then ds ++ "e" ++ es
    else substring 0 1 ds ++ "." ++ substring 1 (Z.to_nat (k - 1)) ds ++ "e" ++ es.

Definition to_string (x : number) : string :=
  match x with
  | S754_nan => "NaN"
  | S754_zero _ => "0"
  | S754_infinity s => if s then "-Infinity" else "Infinity"
  | S754_finite s m e =>
      let sign := if s then "-" else "" in
      match binary_round prec emax false m e with
      | S754_finite _ m' e' =>
          let num := Zpos m' * 2 ^ (Z.max e' 0) in
          let den := 2 ^ (Z.max (- e') 0) in
          let '(n, k, s') :=
            shortest 16 (S754_finite false m' e') num den (magnitude num den) 1 in
          sign ++ layout n k s'
      | S754_infinity _ => sign ++ "Infinity"
      | _ => "0"
      end
  end.

End Num.

(** ** Primitive values

    The values the exported functions are documented to take (strings and
    numbers) together with undefined, null and the booleans.  Symbols,
    BigInts and objects are outside the parameter types of main.js. *)

Inductive value : Type :=
  | Undefined
  | Null
  | Bool (b : bool)
  | Number (n : Num.number)
  | Str (s : string).

Definition num (z : Z) : value := Number (Num.of_Z z).

(** ToBoolean (ECMA-262 7.1.2). *)
Definition ToBoolean (v : value) : bool :=
  match v with
  | Undefined | Null => false
  | Bool b => b
  | Number n => negb (Num.is_zero n || Num.is_nan n)
  | Str s => negb (is_empty s)
  end.

(** ToNumber (ECMA-262 7.1.4). *)
Definition ToNumber (v : value) : Num.number :=
  match v with
  | Undefined => Num.NaN
  | Null => Num.pos_zero
  | Bool b => if b then Num.of_Z 1 else Num.pos_zero
  | Number n => n
  | Str s => Num.of_string s
  end.

(** ToString (ECMA-262 7.1.17), which a template literal applies to each
    substitution. *)
Definition ToString (v : value) : string :=
  match v with
  | Undefined => "undefined"
  | Null => "null"
  | Bool b => if b then "true" else "false"
  | Number n => Num.to_string n
  | Str s => s
  end.

(** The global function isNaN. *)
Definition isNaN (v : value) : bool := Num.is_nan (ToNumber v).

(** [v === s] for a string [s]. *)
Definition strict_eq_str (v : value) (s : string) : bool :=
  match v with
  | Str t => (t =? s)%string
  | _ => false
  end.

(** [a < b] (IsLessThan, ECMA-262 7.2.13): two strings are compared by
    code units, anything else as numbers. *)
Definition lt (a b : value) : bool :=
  match a, b with
  | Str s, Str t => String.ltb s t
  | _, _ => Num.ltb (ToNumber a) (ToNumber b)
  end.

(** A parameter with a default value takes it when the argument is
    undefined. *)
Definition default (d v : value) : value :=
  match v with
  | Undefined => d
  | _ => v
  end.

(** ** The validator *)

Record Valid : Type := { valid : bool; errors : list string }.

Definition invalidProject : string :=
  "A valid project name is required and can not be empty example: (sunshine)".

Definition invalidStatus : string :=
  "A valid status is required and can not be empty example: (1 for Open or 3 for In process)".

Definition invalidStatusFor : string :=
  "A valid number of days is required and must be a positive number".

(** errors.push(x) *)
Definition push (errors : list string) (x : string) : list string :=
  errors ++ [x].

Definition isValid (project status inStatusFor : value) : Valid :=
  let errors := [] in
  let errors := if negb (ToBoolean project) then push errors invalidProject else errors in
  let errors := if negb (ToBoolean status) then push errors invalidStatus else errors in
  let errors :=
    if strict_eq_str inStatusFor "" || isNaN inStatusFor || lt inStatusFor (num 0)
    then push errors invalidStatusFor else errors in
  if negb (Nat.eqb (List.length errors) 0)
  then {| valid := false; errors := errors |}
  else {| valid := true; errors := [] |}.

(** ** The URL builders *)

Definition queryURL (project status inStatusFor maxResults : value) : string :=
  let maxResults := default (num 100) maxResults in
  let baseURL := "https://jira.secondlife.com/rest/api/2/search?jql=" in
  let queryString :=
    "project=" ++ ToString project ++ "+and+status=" ++ ToString status
    ++ "+and+status+changed+to+" ++ ToString status ++ "+before+-"
    ++ ToString inStatusFor ++ "d&fields=id,status,key,assignee,summary&maxresults="
    ++ ToString maxResults in
  baseURL ++ queryString.

Definition feedURL (user : value) : string :=
  "https://jira.secondlife.com/activity?maxResults=50&streams=user+IS+"
  ++ ToString user ++ "&providers=issues".

(** ** The issue mapper *)

Record IssueStatus : Type :=
  { description : value; iconUrl : value; name : value }.

Record IssueFields : Type :=
  { status : IssueStatus; summary : value }.

Record Issue : Type :=
  { key : value; fields : IssueFields }.

Definition queryItem (i : Issue) : string :=
  "<tr>" ++ nl
  ++ sp 14 ++ "<td>" ++ ToString (key i) ++ "</td>" ++ nl
  ++ sp 14 ++ "<td>" ++ nl
  ++ sp 16 ++ "<span title=" ++ dq ++ ToString (description (status (fields i))) ++ dq ++ ">" ++ nl
  ++ sp 18 ++ "<img src=" ++ dq ++ ToString (iconUrl (status (fields i))) ++ dq ++ " />" ++ nl
  ++ sp 18 ++ "<span>" ++ ToString (name (status (fields i))) ++ "</span>" ++ nl
  ++ sp 16 ++ "</span>" ++ nl
  ++ sp 14 ++ "</td>" ++ nl
  ++ sp 14 ++ "<td>" ++ ToString (summary (fields i)) ++ "</td>" ++ nl
  ++ sp 12 ++ "</tr>".

Definition buildQueryItems (items : list Issue) : list string :=
  map queryItem items.

(** ** The table renderer *)

Definition queryHeader : string :=
  "<tr><th>Issue</th><th>Status</th><th>Summary</th></tr>".

Definition activityHeader : string :=
  "<tr><th>Date</th><th>Activity</th></tr>".

Definition emptyRow (queryName : value) : string :=
  "<tr><td colspan=" ++ dq ++ "3" ++ dq ++ ">There are no "
  ++ ToString queryName ++ " results</td></tr>".

Definition tableHead (queryType : value) : string :=
  if strict_eq_str queryType "query" then queryHeader else activityHeader.

Definition tableBody (items : list string) (queryName : value) : string :=
  if negb (Nat.eqb (List.length items) 0) then join "" items else emptyRow queryName.

Definition resultsTable (items : list string) (queryName queryType : value) : string :=
  let queryType := default Null queryType in
  "<h5>" ++ ToString queryName ++ " Results</h5>" ++ nl
  ++ sp 10 ++ "<table width=" ++ dq ++ "100%" ++ dq ++ ">" ++ nl
  ++ sp 12 ++ "<thead>" ++ nl
  ++ sp 12 ++ tableHead queryType ++ nl
  ++ nl
  ++ sp 12 ++ "</thead>" ++ nl
  ++ sp 12 ++ "<tbody>" ++ nl
  ++ sp 14 ++ tableBody items queryName ++ nl
  ++ sp 12 ++ "</tbody>" ++ nl
  ++ sp 10 ++ "</table>".

(** ** Failure

    A function of main.js either returns or throws; a rejected promise is
    a throw at the await that receives it. *)

Inductive error : Type :=
  | TypeError      (* a property read or a call on undefined or null, or a
                      value that does not convert to a primitive *)
  | SyntaxError    (* a body that is not JSON *)
  | FetchFailed.   (* the request could not complete *)

Inductive result (A : Type) : Type :=
  | Return (a : A)
  | Throw (e : error).

Arguments Return {A} a.
Arguments Throw {A} e.

Definition rbind {A B} (r : result A) (k : A -> result B) : result B :=
  match r with
  | Return a => k a
  | Throw e => Throw e
  end.

(** ** The host: what the browser supplies to main.js *)

(** An XML document, as the tree of its elements and text. *)
Inductive node : Type :=
  | Element (tag : string) (children : list node)
  | Text (data : string).

Record Host : Type :=
  { (* element.innerHTML: the serialisation of the element's children *)
    innerHTML : node -> string;
    (* new Date(s).toLocaleString() *)
    toLocaleString : string -> string;
    (* new DOMParser().parseFromString(s, "text/html").body.textContent *)
    htmlBodyText : string -> string;
    (* new DOMParser().parseFromString(s, "text/xml"), as its root *)
    parseXML : string -> node }.

(** The elements of the tree below and including [n], in document
    order. *)
Fixpoint elements (n : node) : list node :=
  match n with
  | Element _ children => n :: flat_map elements children
  | Text _ => []
  end.

Definition descendants (n : node) : list node :=
  match n with
  | Element _ children => flat_map elements children
  | Text _ => []
  end.

Definition has_tag (t : string) (n : node) : bool :=
  match n with
  | Element tag _ => (tag =? t)%string
  | Text _ => false
  end.

(** document.getElementsByTagName(t) *)
Definition documentElementsByTagName (doc : node) (t : string) : list node :=
  filter (has_tag t) (elements doc).

(** element.getElementsByTagName(t) *)
Definition getElementsByTagName (e : node) (t : string) : list node :=
  filter (has_tag t) (descendants e).

(** [xs[0].p]: reading a property of the first member throws when there
    is none. *)
Definition first_of {A} (xs : list A) : result A :=
  match xs with
  | x :: _ => Return x
  | [] => Throw TypeError
  end.

(** ** The text-extraction utility *)

Definition domify (h : Host) (str : string) : string :=
  htmlBodyText h ("<!doctype html><body>" ++ str).

(** ** The activity mapper *)

Definition feedItem (h : Host) (updated html : string) : string :=
  "<tr>" ++ nl
  ++ sp 10 ++ "<td>" ++ toLocaleString h updated ++ "</td>" ++ nl
  ++ sp 10 ++ "<td>" ++ domify h html ++ "</td>" ++ nl
  ++ sp 6 ++ "</tr>".

(** The body of the for loop, from [entries[index]] on, with the items
    pushed so far. *)
Fixpoint feedLoop (h : Host) (entries : list node) (items : list string)
  : result (list string) :=
  match entries with
  | [] => Return items
  | entry :: rest =>
      rbind (first_of (getElementsByTagName entry "title")) (fun title =>
      let html := innerHTML h title in
      rbind (first_of (getElementsByTagName entry "updated")) (fun upd =>
      let updated := innerHTML h upd in
      feedLoop h rest (push items (feedItem h updated html))))
  end.

Definition buildFeedItems (h : Host) (doc : node) : result (list string) :=
  let feed := documentElementsByTagName doc "feed" in
  rbind (first_of feed) (fun feed0 =>
  let entries := getElementsByTagName feed0 "entry" in
  feedLoop h entries []).

(** ** JSON bodies *)

Inductive json : Type :=
  | JNull
  | JBool (b : bool)
  | JNumber (n : Num.number)
  | JString (s : string)
  | JArray (items : list json)
  | JObject (members : list (string * json)).

(** The member [k] of a parsed object: JSON.parse keeps the last of
    several members with one name. *)
Fixpoint member (k : string) (members : list (string * json)) : option json :=
  match members with
  | [] => None
  | (k', v) :: rest =>
      match member k rest with
      | Some v' => Some v'
      | None => if (k' =? k)%string then Some v else None
      end
  end.

(** Array.prototype.join over elements converted by [str]: undefined and
    null members give the empty string. *)
Definition joinWith (str : json -> result string) (sep : string)
  : list json -> result string :=
  fix go (xs : list json) : result string :=
    match xs with
    | [] => Return EmptyString
    | x :: rest =>
        rbind (match x with JNull => Return EmptyString | _ => str x end) (fun a =>
        match rest with
        | [] => Return a
        | _ :: _ => rbind (go rest) (fun b => Return (a ++ sep ++ b))
        end)
    end.

(** ToString of a parsed JSON value.  An array is joined with commas.  An
    object gives "[object Object]" through Object.prototype.toString,
    unless a member named toString hides that method: then no
    conversion to a primitive exists, and ToString throws. *)
Fixpoint jsonToString (j : json) : result string :=
  match j with
  | JNull => Return "null"
  | JBool b => Return (if b then "true" else "false")
  | JNumber n => Return (Num.to_string n)
  | JString s => Return s
  | JArray items => joinWith jsonToString "," items
  | JObject members =>
      match member "toString" members with
      | Some _ => Throw TypeError
      | None => Return "[object Object]"
      end
  end.

(** [json.errorMessages.join(sep)]: reading errorMessages of null throws,
    and so does the call unless the member is an array. *)
Definition errorMessagesJoin (j : json) (sep : string) : result string :=
  match j with
  | JNull => Throw TypeError
  | JObject members =>
      match member "errorMessages" members with
      | Some (JArray items) => joinWith jsonToString sep items
      | _ => Throw TypeError
      end
  | _ => Throw TypeError
  end.

(** ** The page and the network *)

(** The status line of the popup and the requests sent so far. *)
Record Page : Type :=
  { statusHTML : string;       (* statusElement.innerHTML *)
    statusHidden : bool;       (* statusElement.hidden *)
    requests : list string }.  (* the URLs passed to fetch, oldest first *)

(** A computation that reads and writes the page and may throw. *)
Definition M (A : Type) : Type := Page -> result A * Page.

Definition ret {A} (a : A) : M A := fun p => (Return a, p).

Definition throw {A} (e : error) : M A := fun p => (Throw e, p).

Definition bind {A B} (m : M A) (k : A -> M B) : M B :=
  fun p =>
    match m p with
    | (Return a, p') => k a p'
    | (Throw e, p') => (Throw e, p')
    end.

Definition try_catch {A} (m : M A) (handler : error -> M A) : M A :=
  fun p =>
    match m p with
    | (Return a, p') => (Return a, p')
    | (Throw e, p') => handler e p'
    end.

Definition lift {A} (r : result A) : M A := fun p => (r, p).

Notation "x <- m ;; k" := (bind m (fun x => k))
  (at level 61, m at next level, right associativity).
Notation "m ;;; k" := (bind m (fun _ => k))
  (at level 61, right associativity).

Record Response : Type :=
  { statusCode : Z;               (* response.status *)
    bodyJson : result json;       (* what response.json() settles to *)
    bodyText : result string }.   (* what response.text() settles to *)

(** response.ok *)
Definition ok (r : Response) : bool :=
  (200 <=? statusCode r) && (statusCode r <=? 299).

(** The network: what fetch settles to for a URL; [None] when the request
    could not complete. *)
Definition Network : Type := string -> option Response.

Definition fetch (net : Network) (url : string) : M Response :=
  fun p =>
    (match net url with
     | Some r => Return r
     | None => Throw FetchFailed
     end,
     {| statusHTML := statusHTML p;
        statusHidden := statusHidden p;
        requests := requests p ++ [url] |}).

(** ** DOM updates *)

Definition updateStatus (message : string) (error : bool) : M unit :=
  fun p =>
    (Return tt,
     {| statusHTML := if error then "ERROR. " ++ message else message;
        statusHidden := false;
        requests := requests p |}).

(** ** Requests *)

(** What make_request resolves to. *)
Inductive reply : Type :=
  | RFalse
  | RUndefined
  | RJson (j : json)
  | RDocument (doc : node).

Definition loginMessage : string :=
  "You must be logged in to JIRA to see this project.".

(** [status] is [None] when the argument is left out. *)
Definition handleError (j : json) (status : option Z) : M unit :=
  message <-
    (match status with
     | Some 401 => ret loginMessage
     | _ => lift (errorMessagesJoin j "</br>")
     end) ;;
  updateStatus message true.

Definition handleResponse (h : Host) (response : Response) (responseType : value)
  : M reply :=
  if strict_eq_str responseType "json"
  then j <- lift (bodyJson response) ;; ret (RJson j)
  else t <- lift (bodyText response) ;; ret (RDocument (parseXML h t)).

Definition networkError : json :=
  JObject [("errorMessages", JArray [JString "Network Error"])].

(** The try block ends either with a value to return or with the call of
    handleResponse.  That call is returned without an await, so a failure
    of it settles the promise of make_request after the try block is
    left, and the catch clause does not see it. *)
Definition make_request (net : Network) (h : Host) (url : string)
  (responseType : value) : M reply :=
  step <-
    try_catch
      (response <- fetch net url ;;
       if negb (ok response) then
         j <- lift (bodyJson response) ;;
         handleError j (Some (statusCode response)) ;;;
         ret (inl RFalse)
       else ret (inr response))
      (fun err => handleError networkError None ;;; ret (inl RUndefined)) ;;
  match step with
  | inl r => ret r
  | inr response => handleResponse h response responseType
  end.

(** ** Reading parsed JSON

    What main.js reads from a parsed body, beyond errorMessages. *)

(** ToBoolean of a parsed JSON value: arrays and objects are truthy. *)
Definition jsonTruthy (j : json) : bool :=
  match j with
  | JNull => false
  | JBool b => b
  | JNumber n => negb (Num.is_zero n || Num.is_nan n)
  | JString s => negb (is_empty s)
  | JArray _ | JObject _ => true
  end.

(** [j.k] for the property names main.js reads (issues, key, fields,
    status, summary, description, iconUrl, name), none of which a
    prototype defines: an object gives its member or undefined ([None]),
    any other value but null gives undefined, and null throws. *)
Definition getProp (j : json) (k : string) : result (option json) :=
  match j with
  | JNull => Throw TypeError
  | JObject members => Return (member k members)
  | _ => Return None
  end.

(** [v.k] where [v] may be undefined. *)
Definition readProp (v : option json) (k : string) : result (option json) :=
  match v with
  | None => Throw TypeError
  | Some j => getProp j k
  end.

(** A value read from a body, as the template literal sees it: a scalar
    as it is, an array or an object through its conversion to a
    string. *)
Definition valueOfJson (v : option json) : result value :=
  match v with
  | None => Return Undefined
  | Some JNull => Return Null
  | Some (JBool b) => Return (Bool b)
  | Some (JNumber n) => Return (Number n)
  | Some (JString s) => Return (Str s)
  | Some j => rbind (jsonToString j) (fun s => Return (Str s))
  end.

(** The reads [i.key], [i.fields.status.description], ... that the
    template literal of buildQueryItems makes of one member of the
    array. *)
Definition issueOfJson (i : json) : result Issue :=
  rbind (rbind (getProp i "key") valueOfJson) (fun k =>
  rbind (getProp i "fields") (fun f =>
  rbind (readProp f "status") (fun st =>
  rbind (rbind (readProp st "description") valueOfJson) (fun d =>
  rbind (rbind (readProp st "iconUrl") valueOfJson) (fun u =>
  rbind (rbind (readProp st "name") valueOfJson) (fun n =>
  rbind (rbind (readProp f "summary") valueOfJson) (fun s =>
  Return {| key := k;
            fields := {| status := {| description := d; iconUrl := u; name := n |};
                         summary := s |} |}))))))).

Fixpoint issuesOfJson (items : list json) : result (list Issue) :=
  match items with
  | [] => Return []
  | i :: rest =>
      rbind (issueOfJson i) (fun x =>
      rbind (issuesOfJson rest) (fun xs => Return (x :: xs)))
  end.

(** ToBoolean of what make_request resolves to. *)
Definition truthy (r : reply) : bool :=
  match r with
  | RFalse | RUndefined => false
  | RJson j => jsonTruthy j
  | RDocument _ => true
  end.

(** [buildQueryItems(result.issues || [])] for a truthy [result]: the
    call of map throws unless the operand is an array. *)
Definition queryRows (r : reply) : result (list string) :=
  rbind (match r with
         | RJson j => getProp j "issues"
         | _ => Return None
         end) (fun issues =>
  let arg :=
    match issues with
    | Some j => if jsonTruthy j then j else JArray []
    | None => JArray []
    end in
  match arg with
  | JArray items => rbind (issuesOfJson items) (fun xs => Return (buildQueryItems xs))
  | _ => Throw TypeError
  end).

(** [buildFeedItems(result)] for a truthy [result]; only a document has
    getElementsByTagName. *)
Definition feedRows (h : Host) (r : reply) : result (list string) :=
  match r with
  | RDocument doc => buildFeedItems h doc
  | _ => Throw TypeError
  end.

(** ** The popup

    The page together with the results container, the form fields and
    the click handlers of the two buttons. *)

Record Popup : Type :=
  { page : Page;
    resultHTML : string;      (* the markup last put into queryResult *)
    resultHidden : bool;      (* queryResult.hidden *)
    projectValue : string;    (* projectElement.value *)
    statusValue : string;     (* statusSelect.value *)
    daysValue : string;       (* inStatusFor.value *)
    userValue : string;       (* userElement.value *)
    queryBound : bool;        (* queryButton.onclick is set *)
    feedBound : bool }.       (* feedButton.onclick is set *)

Definition withPage (w : Popup) (p : Page) : Popup :=
  {| page := p;
     resultHTML := resultHTML w; resultHidden := resultHidden w;
     projectValue := projectValue w; statusValue := statusValue w;
     daysValue := daysValue w; userValue := userValue w;
     queryBound := queryBound w; feedBound := feedBound w |}.

Definition withResult (w : Popup) (html : string) (hidden : bool) : Popup :=
  {| page := page w;
     resultHTML := html; resultHidden := hidden;
     projectValue := projectValue w; statusValue := statusValue w;
     daysValue := daysValue w; userValue := userValue w;
     queryBound := queryBound w; feedBound := feedBound w |}.

Definition withFields (w : Popup) (project days user : string) : Popup :=
  {| page := page w;
     resultHTML := resultHTML w; resultHidden := resultHidden w;
     projectValue := project; statusValue := statusValue w;
     daysValue := days; userValue := user;
     queryBound := queryBound w; feedBound := feedBound w |}.

Definition withHandlers (w : Popup) (query feed : bool) : Popup :=
  {| page := page w;
     resultHTML := resultHTML w; resultHidden := resultHidden w;
     projectValue := projectValue w; statusValue := statusValue w;
     daysValue := daysValue w; userValue := userValue w;
     queryBound := query; feedBound := feed |}.

(** A computation on the popup that may throw. *)
Definition PM (A : Type) : Type := Popup -> result A * Popup.

Definition pret {A} (a : A) : PM A := fun w => (Return a, w).

Definition pbind {A B} (m : PM A) (k : A -> PM B) : PM B :=
  fun w =>
    match m w with
    | (Return a, w') => k a w'
    | (Throw e, w') => (Throw e, w')
    end.

Definition plift {A} (r : result A) : PM A := fun w => (r, w).

(** A computation on the page, run on the page of the popup. *)
Definition onPage {A} (m : M A) : PM A :=
  fun w => let '(r, p) := m (page w) in (r, withPage w p).

Notation "x <-- m ;; k" := (pbind m (fun x => k))
  (at level 61, m at next level, right associativity).
Notation "m ;;;; k" := (pbind m (fun _ => k))
  (at level 61, right associativity).

Definition jsonResponse : value := Str "json".

Definition projectURL : string :=
  "https://jira.secondlife.com/rest/api/2/project/SUN".

(** ** The project check *)

Definition checkProjectExists (net : Network) (h : Host) : M reply :=
  try_catch (make_request net h projectURL jsonResponse)
            (fun errorMessage => ret RFalse).

(** ** Showing results *)

(** The container is emptied, given the fragment made of the table
    markup, and shown. *)
Definition buildResultsTable (items : list string) (queryName queryType : value)
  : PM unit :=
  fun w =>
    let table := resultsTable items queryName queryType in
    (Return tt, withResult w table false).

(** ** The click handlers *)

Definition handleQueryClick (net : Network) (h : Host) : PM unit :=
  fun w =>
    let project := Str (projectValue w) in
    let status := Str (statusValue w) in
    let inStatus := Str (daysValue w) in
    let title := Str "Ticket Status Query" in
    let queryType := Str "query" in
    let v := isValid project status inStatus in
    if negb (valid v) then
      onPage (updateStatus (join "<br/>" (errors v)) true) (withResult w (resultHTML w) true)
    else
      let url := queryURL project status inStatus Undefined in
      (onPage (updateStatus ("Performing JIRA search for " ++ url) false) ;;;;
       result <-- onPage (make_request net h url jsonResponse) ;;
       if truthy result then
         items <-- plift (queryRows result) ;;
         buildResultsTable items title queryType ;;;;
         onPage (updateStatus ("Query term: " ++ url ++ nl) false)
       else pret tt) w.

Definition handleFeedClick (net : Network) (h : Host) : PM unit :=
  fun w =>
    let url := feedURL (Str (userValue w)) in
    (onPage (updateStatus ("Activity query: " ++ url ++ nl) false) ;;;;
     result <-- onPage (make_request net h url Undefined) ;;
     if truthy result then
       items <-- plift (feedRows h result) ;;
       buildResultsTable items (Str "JIRA Activity Query") Undefined
     else pret tt) w.

(** ** Options and start-up *)

(** chrome.storage.sync, read with defaults: what is stored under a key,
    if anything.  The callback of get is taken to run with the items, as
    it does when the store can be read. *)
Definition Storage : Type := string -> option value.

(** Assigning [v] to the value of an input: null gives the empty string,
    anything else its conversion to a string. *)
Definition inputValue (v : value) : string :=
  match v with
  | Null => EmptyString
  | _ => ToString v
  end.

Definition stored (store : Storage) (k : string) (d : value) : value :=
  match store k with
  | Some v => v
  | None => d
  end.

Definition loadOptions (store : Storage) : PM unit :=
  fun w =>
    let project := stored store "project" (Str "Sunshine") in
    let user := stored store "user" (Str "nyx.linden") in
    (Return tt, withFields w (inputValue project) (daysValue w) (inputValue user)).

(** The two assignments of the callback touch other fields than the
    statements after loadOptions() do, so running the callback at once
    gives the state the popup ends in. *)
Definition handleContentLoaded (net : Network) (h : Host) (store : Storage)
  : PM unit :=
  exists_ <-- onPage (checkProjectExists net h) ;;
  if negb (truthy exists_) then pret tt
  else
    loadOptions store ;;;;
    (fun w => (Return tt,
               withFields w (projectValue w) (inputValue (num 1)) (userValue w))) ;;;;
    (fun w => (Return tt, withHandlers w true (feedBound w))) ;;;;
    (fun w => (Return tt, withHandlers w (queryBound w) true)).

(** ** The function bodies as programs

    The fragment of JavaScript in which the string builders and
    updateStatus are written, with its evaluation on the popup: an
    expression may read and assign the properties of the cached
    elements, so that what a body does to the popup is a matter of
    proof. *)

(** The element properties main.js reads or assigns. *)
Inductive field : Type :=
  | FStatusInnerHTML     (* statusElement.innerHTML *)
  | FStatusHidden        (* statusElement.hidden *)
  | FResultInnerHTML     (* queryResult.innerHTML *)
  | FResultHidden        (* queryResult.hidden *)
  | FProjectValue        (* projectElement.value *)
  | FStatusValue         (* statusSelect.value *)
  | FDaysValue           (* inStatusFor.value *)
  | FUserValue.          (* userElement.value *)

(** A primitive value or an array of strings (the rows). *)
Inductive jsval : Type :=
  | VPrim (v : value)
  | VArray (rows : list string).

Inductive expr : Type :=
  | EVar (x : string)                 (* a parameter or a let-bound name *)
  | EStr (s : string)                 (* a string literal, or the text
                                         between two substitutions *)
  | ENum (z : Z)                      (* an integer literal *)
  | EBool (b : bool)
  | ENull
  | EUndefined
  | ESub (a : expr)                   (* the substitution ${a} *)
  | ECat (a b : expr)                 (* two parts of a template literal *)
  | EIs (a : expr) (s : string)       (* a === "s" *)
  | ECond (c a b : expr)              (* c ? a : b *)
  | ELength (a : expr)                (* a.length *)
  | EJoin (a : expr) (sep : string)   (* a.join("sep") *)
  | ELet (x : string) (a b : expr)    (* let x = a; b *)
  | ERead (f : field)
  | EAssign (f : field) (a : expr)    (* f = a *)
  | ESeq (a b : expr).                (* a; b *)

(** A template literal, from its parts in order. *)
Definition template (parts : list expr) : expr :=
  fold_right ECat (EStr EmptyString) parts.

(** ToString, of an array through its join with commas. *)
Definition stringOf (v : jsval) : string :=
  match v with
  | VPrim p => ToString p
  | VArray rows => join "," rows
  end.

Definition truthyVal (v : jsval) : bool :=
  match v with
  | VPrim p => ToBoolean p
  | VArray _ => true
  end.

(** The string a text property takes from an assigned value: null gives
    the empty string. *)
Definition domString (v : jsval) : string :=
  match v with
  | VPrim Null => EmptyString
  | _ => stringOf v
  end.

Definition readField (f : field) (w : Popup) : jsval :=
  match f with
  | FStatusInnerHTML => VPrim (Str (statusHTML (page w)))
  | FStatusHidden => VPrim (Bool (statusHidden (page w)))
  | FResultInnerHTML => VPrim (Str (resultHTML w))
  | FResultHidden => VPrim (Bool (resultHidden w))
  | FProjectValue => VPrim (Str (projectValue w))
  | FStatusValue => VPrim (Str (statusValue w))
  | FDaysValue => VPrim (Str (daysValue w))
  | FUserValue => VPrim (Str (userValue w))
  end.

Definition writeField (f : field) (v : jsval) (w : Popup) : Popup :=
  match f with
  | FStatusInnerHTML =>
      withPage w {| statusHTML := domString v;
                    statusHidden := statusHidden (page w);
                    requests := requests (page w) |}
  | FStatusHidden =>
      withPage w {| statusHTML := statusHTML (page w);
                    statusHidden := truthyVal v;
                    requests := requests (page w) |}
  | FResultInnerHTML => withResult w (domString v) (resultHidden w)
  | FResultHidden => withResult w (resultHTML w) (truthyVal v)
  | FProjectValue => withFields w (domString v) (daysValue w) (userValue w)
  | FStatusValue =>
      {| page := page w;
         resultHTML := resultHTML w; resultHidden := resultHidden w;
         projectValue := projectValue w; statusValue := domString v;
         daysValue := daysValue w; userValue := userValue w;
         queryBound := queryBound w; feedBound := feedBound w |}
  | FDaysValue => withFields w (projectValue w) (domString v) (userValue w)
  | FUserValue => withFields w (projectValue w) (daysValue w) (domString v)
  end.

Definition env : Type := list (string * jsval).

(** The binding of a name, the innermost first; a name that is not bound
    is undefined. *)
Fixpoint lookup (x : string) (en : env) : jsval :=
  match en with
  | [] => VPrim Undefined
  | (y, v) :: rest => if (y =? x)%string then v else lookup x rest
  end.

Fixpoint eval (en : env) (e : expr) : PM jsval :=
  match e with
  | EVar x => pret (lookup x en)
  | EStr s => pret (VPrim (Str s))
  | ENum z => pret (VPrim (num z))
  | EBool b => pret (VPrim (Bool b))
  | ENull => pret (VPrim Null)
  | EUndefined => pret (VPrim Undefined)
  | ESub a => v <-- eval en a ;; pret (VPrim (Str (stringOf v)))
  | ECat a b =>
      x <-- eval en a ;;
      y <-- eval en b ;;
      pret (VPrim (Str (stringOf x ++ stringOf y)))
  | EIs a s =>
      v <-- eval en a ;;
      pret (VPrim (Bool (match v with
                         | VPrim p => strict_eq_str p s
                         | VArray _ => false
                         end)))
  | ECond c a b =>
      v <-- eval en c ;;
      if truthyVal v then eval en a else eval en b
  | ELength a =>
      v <-- eval en a ;;
      match v with
      | VArray rows => pret (VPrim (num (Z.of_nat (List.length rows))))
      | VPrim (Str s) => pret (VPrim (num (Z.of_nat (String.length s))))
      | VPrim Undefined | VPrim Null => plift (Throw TypeError)
      | VPrim _ => pret (VPrim Undefined)
      end
  | EJoin a sep =>
      v <-- eval en a ;;
      match v with
      | VArray rows => pret (VPrim (Str (join sep rows)))
      | VPrim _ => plift (Throw TypeError)
      end
  | ELet x a b => v <-- eval en a ;; eval ((x, v) :: en) b
  | ERead f => fun w => (Return (readField f w), w)
  | EAssign f a => v <-- eval en a ;; fun w => (Return v, writeField f v w)
  | ESeq a b => eval en a ;;;; eval en b
  end.

(** A function: its parameters, each with its default value if it has
    one, and its body, whose value the function returns. *)
Record func : Type :=
  { params : list (string * option expr); body : expr }.

Fixpoint bindParams (ps : list (string * option expr)) (args : list jsval)
  (en : env) : PM env :=
  match ps with
  | [] => pret en
  | (x, d) :: rest =>
      v <-- (match d with
             | Some e =>
                 match hd (VPrim Undefined) args with
                 | VPrim Undefined => eval en e
                 | a => pret a
                 end
             | None => pret (hd (VPrim Undefined) args)
             end) ;;
      bindParams rest (tl args) ((x, v) :: en)
  end.

Definition call (f : func) (args : list jsval) : PM jsval :=
  en <-- bindParams (params f) args [] ;;
  eval en (body f).

(** An expression that reads and assigns no property. *)
Fixpoint effectFree (e : expr) : bool :=
  match e with
  | EVar _ | EStr _ | ENum _ | EBool _ | ENull | EUndefined => true
  | ESub a | EIs a _ | ELength a | EJoin a _ => effectFree a
  | ECat a b | ELet _ a b | ESeq a b => effectFree a && effectFree b
  | ECond c a b => effectFree c && effectFree a && effectFree b
  | ERead _ | EAssign _ _ => false
  end.

(** A function whose default values and body read and assign no
    property. *)
Definition pureFunc (f : func) : bool :=
  forallb (fun pd => match snd pd with Some d => effectFree d | None => true end)
    (params f)
  && effectFree (body f).

(** main.js, lines 20 to 23. *)
Definition updateStatus_js : func :=
  {| params := [("message", None); ("error", Some (EBool false))];
     body :=
       ESeq (EAssign FStatusInnerHTML
               (ECond (EVar "error")
                  (template [EStr "ERROR. "; ESub (EVar "message")])
                  (EVar "message")))
         (ESeq (EAssign FStatusHidden (EBool false)) EUndefined) |}.

(** main.js, lines 88 to 92. *)
Definition queryURL_js : func :=
  {| params := [("project", None); ("status", None); ("inStatusFor", None);
                ("maxResults", Some (ENum 100))];
     body :=
       ELet "baseURL" (EStr "https://jira.secondlife.com/rest/api/2/search?jql=")
         (ELet "queryString"
            (template
               [EStr "project="; ESub (EVar "project");
                EStr "+and+status="; ESub (EVar "status");
                EStr "+and+status+changed+to+"; ESub (EVar "status");
                EStr "+before+-"; ESub (EVar "inStatusFor");
                EStr "d&fields=id,status,key,assignee,summary&maxresults=";
                ESub (EVar "maxResults")])
            (template [ESub (EVar "baseURL"); ESub (EVar "queryString")])) |}.

(** main.js, lines 146 and 147. *)
Definition feedURL_js : func :=
  {| params := [("user", None)];
     body :=
       template
         [EStr "https://jira.secondlife.com/activity?maxResults=50&streams=user+IS+";
          ESub (EVar "user");
          EStr "&providers=issues"] |}.

(** main.js, lines 193 to 212. *)
Definition resultsTable_js : func :=
  {| params := [("items", None); ("queryName", None); ("queryType", Some ENull)];
     body :=
       template
         [EStr "<h5>"; ESub (EVar "queryName");
          EStr (" Results</h5>" ++ nl
                ++ sp 10 ++ "<table width=" ++ dq ++ "100%" ++ dq ++ ">" ++ nl
                ++ sp 12 ++ "<thead>" ++ nl
                ++ sp 12);
          ESub (ECond (EIs (EVar "queryType") "query")
                  (EStr "<tr><th>Issue</th><th>Status</th><th>Summary</th></tr>")
                  (EStr "<tr><th>Date</th><th>Activity</th></tr>"));
          EStr (nl
                ++ nl
                ++ sp 12 ++ "</thead>" ++ nl
                ++ sp 12 ++ "<tbody>" ++ nl
                ++ sp 14);
          ESub (ECond (ELength (EVar "items"))
                  (EJoin (EVar "items") "")
                  (template
                     [EStr ("<tr><td colspan=" ++ dq ++ "3" ++ dq ++ ">There are no ");
                      ESub (EVar "queryName");
                      EStr " results</td></tr>"]));
          EStr (nl
                ++ sp 12 ++ "</tbody>" ++ nl
                ++ sp 10 ++ "</table>")] |}.

(** ** Vocabulary of the properties *)

(** The empty or falsy values: undefined, null, false, the empty string,
    and the numbers +0, -0 and NaN. *)
Definition falsy (v : value) : Prop :=
  v = Undefined \/ v = Null \/ v = Bool false \/ v = Str ""
  \/ v = Number (S754_zero false) \/ v = Number (S754_zero true)
  \/ v = Number S754_nan.

(** A value is not numeric when its conversion to a number is NaN, and
    negative when that number is below zero. *)
Definition notNumeric (v : value) : Prop := ToNumber v = S754_nan.

Definition negative (v : value) : Prop :=
  match ToNumber v with
  | S754_infinity true | S754_finite true _ _ => True
  | _ => False
  end.

(** The days field is rejected when it is the empty string, not numeric,
    or negative. *)
Definition daysRejected (v : value) : Prop :=
  v = Str "" \/ notNumeric v \/ negative v.

(** The test of the third check of the validator. *)
Definition daysTest (d : value) : bool :=
  strict_eq_str d "" || isNaN d || lt d (num 0).

(** A string of one or more white-space code units. *)
Fixpoint all_ws (s : string) : bool :=
  match s with
  | EmptyString => true
  | String c r => is_ws c && all_ws r
  end.

Definition whitespaceOnly (s : string) : Prop :=
  s <> EmptyString /\ all_ws s = true.

(** The messages of a validation, in the order of the checks, each under
    its flag. *)
Definition messages (noProject noStatus noDays : bool) : list string :=
  (if noProject then [invalidProject] else [])
  ++ (if noStatus then [invalidStatus] else [])
  ++ (if noDays then [invalidStatusFor] else []).

(** The markup of an issue row without its layout white space. *)
Definition issueRowMarkup (key description iconUrl name summary : string) : string :=
  "<tr><td>" ++ key ++ "</td><td><span title=" ++ dq ++ description ++ dq
  ++ "><img src=" ++ dq ++ iconUrl ++ dq ++ "/><span>" ++ name
  ++ "</span></span></td><td>" ++ summary ++ "</td></tr>".

(** The lines of an issue row, one per line of the markup, with their
    indentation: the cell of the key, the cell of the status badge (a
    span with the description as tooltip around the icon and the name)
    and the cell of the summary. *)
Definition issueRowLines (key description iconUrl name summary : string) : string :=
  String.concat nl
    [ "<tr>";
      sp 14 ++ "<td>" ++ key ++ "</td>";
      sp 14 ++ "<td>";
      sp 16 ++ "<span title=" ++ dq ++ description ++ dq ++ ">";
      sp 18 ++ "<img src=" ++ dq ++ iconUrl ++ dq ++ " />";
      sp 18 ++ "<span>" ++ name ++ "</span>";
      sp 16 ++ "</span>";
      sp 14 ++ "</td>";
      sp 14 ++ "<td>" ++ summary ++ "</td>";
      sp 12 ++ "</tr>" ].

(** The issue of the test-suite and its row as the test expects it. *)
Definition testIssue : Issue :=
  {| key := num 1;
     fields :=
       {| status :=
            {| description := Str "test";
               iconUrl := Str "testURL";
               name := Str "testName" |};
          summary := Str "testSummary" |} |}.

Definition testRow : string :=
  "<tr><td>1</td><td><spantitle=" ++ dq ++ "test" ++ dq ++ "><imgsrc=" ++ dq
  ++ "testURL" ++ dq
  ++ "/><span>testName</span></span></td><td>testSummary</td></tr>".

(** The table around a header row and a body, with the layout of the
    template literal of resultsTable. *)
Definition tableFrame (heading header body : string) : string :=
  "<h5>" ++ heading ++ " Results</h5>" ++ nl
  ++ sp 10 ++ "<table width=" ++ dq ++ "100%" ++ dq ++ ">" ++ nl
  ++ sp 12 ++ "<thead>" ++ nl
  ++ sp 12 ++ header ++ nl
  ++ nl
  ++ sp 12 ++ "</thead>" ++ nl
  ++ sp 12 ++ "<tbody>" ++ nl
  ++ sp 14 ++ body ++ nl
  ++ sp 12 ++ "</tbody>" ++ nl
  ++ sp 10 ++ "</table>".

(** The rows one after the other. *)
Definition concatRows (rows : list string) : string :=
  fold_right append EmptyString rows.

(** An entry the loop can map: it has a title and an updated element
    below it. *)
Definition entryComplete (e : node) : bool :=
  negb (is_nil (getElementsByTagName e "title"))
  && negb (is_nil (getElementsByTagName e "updated")).

(** The lines of an activity row, one per line of the markup, with their
    indentation: the row tag, the cell of the timestamp, the cell of the
    title and the closing tag. *)
Definition activityRowLines (timestamp title : string) : string :=
  String.concat nl
    [ "<tr>";
      sp 10 ++ "<td>" ++ timestamp ++ "</td>";
      sp 10 ++ "<td>" ++ title ++ "</td>";
      sp 6 ++ "</tr>" ].

(** The row of an entry: the content of its first updated element,
    reformatted by the host as a date, and the content of its first title
    element, reduced by the host to the text of that HTML fragment. *)
Definition entryRow (h : Host) (e : node) : string :=
  activityRowLines
    (toLocaleString h
       (innerHTML h (hd (Text "") (getElementsByTagName e "updated"))))
    (htmlBodyText h
       ("<!doctype html><body>"
        ++ innerHTML h (hd (Text "") (getElementsByTagName e "title")))).

(** A host for the examples: it serialises the text of an element, keeps
    a date and a fragment as they are, and parses nothing. *)
Fixpoint textOf (n : node) : string :=
  match n with
  | Element _ children => String.concat "" (map textOf children)
  | Text data => data
  end.

Definition plainHost : Host :=
  {| innerHTML := textOf;
     toLocaleString := fun s => s;
     htmlBodyText := fun s => s;
     parseXML := fun s => Element "parsererror" [Text s] |}.

(** Feed documents of the examples: a complete entry, an entry without a
    title, and an entry that is not a child of the feed element. *)
Definition completeEntry : node :=
  Element "entry"
    [Element "title" [Text "created SUN-1"];
     Element "updated" [Text "2019-03-01T10:00:00Z"]].

Definition feedOfOne : node := Element "feed" [completeEntry].

Definition feedWithoutTitle : node :=
  Element "feed"
    [Element "entry" [Element "updated" [Text "2019-03-01T10:00:00Z"]]].

Definition feedWithNestedEntry : node :=
  Element "feed" [Element "page" [completeEntry]].

(** The children of an element. *)
Definition childrenOf (n : node) : list node :=
  match n with
  | Element _ children => children
  | Text _ => []
  end.

(** The page after one request for [url] that ended with [message] on
    the status line as an error. *)
Definition failedWith (p : Page) (url message : string) : Page :=
  {| statusHTML := "ERROR. " ++ message;
     statusHidden := false;
     requests := (requests p ++ [url])%list |}.

(** Pages, responses and networks of the examples. *)
Definition blankPage : Page :=
  {| statusHTML := ""; statusHidden := true; requests := [] |}.

Definition unauthorizedHtml : Response :=
  {| statusCode := 401;
     bodyJson := Throw SyntaxError;
     bodyText := Return "<html><body>Unauthorized</body></html>" |}.

Definition unauthorizedJson : Response :=
  {| statusCode := 401;
     bodyJson := Return (JObject [("errorMessages", JArray [JString "Login Required"]);
                                  ("errors", JObject [])]);
     bodyText := Return "" |}.

Definition badRequest : Response :=
  {| statusCode := 400;
     bodyJson := Return (JObject [("errorMessages",
                                   JArray [JString "Field 'statu' does not exist.";
                                           JString "Not able to sort."]);
                                  ("errors", JObject [])]);
     bodyText := Return "" |}.

Definition always (r : Response) : Network := fun _ => Some r.

Definition offline : Network := fun _ => None.

(** The page after a request for [url] that left the status line as it
    was. *)
Definition sent (p : Page) (url : string) : Page :=
  {| statusHTML := statusHTML p;
     statusHidden := statusHidden p;
     requests := (requests p ++ [url])%list |}.

(** The page with [message] on the status line, shown, not as an
    error. *)
Definition noted (p : Page) (message : string) : Page :=
  {| statusHTML := message;
     statusHidden := false;
     requests := requests p |}.

(** A primitive value as a member of a JSON object; undefined is the
    absence of the member. *)
Definition jsonOf (v : value) : option json :=
  match v with
  | Undefined => None
  | Null => Some JNull
  | Bool b => Some (JBool b)
  | Number n => Some (JNumber n)
  | Str s => Some (JString s)
  end.

Definition memberOf (k : string) (v : value) : list (string * json) :=
  match jsonOf v with
  | Some j => [(k, j)]
  | None => []
  end.

(** An issue as the search response carries it. *)
Definition jsonOfIssue (i : Issue) : json :=
  JObject
    (memberOf "key" (key i)
     ++ [("fields",
          JObject
            (("status",
              JObject (memberOf "description" (description (status (fields i)))
                       ++ memberOf "iconUrl" (iconUrl (status (fields i)))
                       ++ memberOf "name" (name (status (fields i)))))
             :: memberOf "summary" (summary (fields i))))])%list.

(** Popups and responses of the examples. *)
Definition blankPopup : Popup :=
  {| page := blankPage;
     resultHTML := ""; resultHidden := true;
     projectValue := ""; statusValue := ""; daysValue := ""; userValue := "";
     queryBound := false; feedBound := false |}.

Definition filledPopup : Popup :=
  {| page := blankPage;
     resultHTML := "<h5>Earlier Results</h5>"; resultHidden := false;
     projectValue := "Sunshine"; statusValue := "1"; daysValue := "1";
     userValue := "nyx.linden";
     queryBound := true; feedBound := true |}.

Definition okJson (j : json) : Response :=
  {| statusCode := 200; bodyJson := Return j; bodyText := Return "" |}.

Definition okText (t : string) : Response :=
  {| statusCode := 200; bodyJson := Throw SyntaxError; bodyText := Return t |}.

(** A host whose XML parser knows one document. *)
Definition feedHost (doc : node) : Host :=
  {| innerHTML := textOf;
     toLocaleString := fun s => s;
     htmlBodyText := fun s => s;
     parseXML := fun _ => doc |}.

Definition emptyStore : Storage := fun _ => None.

(** The message of a non-OK response, when it has one: the logged-in
    message under 401, the joined errorMessages otherwise. *)
Definition errorMessageOf (r : Response) : result string :=
  rbind (bodyJson r) (fun j =>
    if statusCode r =? 401 then Return loginMessage
    else errorMessagesJoin j "</br>").

(** The body of an OK response as the caller asked for it. *)
Definition bodyOf (h : Host) (r : Response) (responseType : value) : result reply :=
  if strict_eq_str responseType "json"
  then rbind (bodyJson r) (fun j => Return (RJson j))
  else rbind (bodyText r) (fun t => Return (RDocument (parseXML h t))).

(** The validation and the URL of the query form as it stands. *)
Definition formValid (w : Popup) : Valid :=
  isValid (Str (projectValue w)) (Str (statusValue w)) (Str (daysValue w)).

Definition formURL (w : Popup) : string :=
  queryURL (Str (projectValue w)) (Str (statusValue w)) (Str (daysValue w)) Undefined.

Definition feedFormURL (w : Popup) : string := feedURL (Str (userValue w)).

Definition searching (w : Popup) : string :=
  "Performing JIRA search for " ++ formURL w.

Definition queryTerm (w : Popup) : string :=
  "Query term: " ++ formURL w ++ nl.

Definition activityQuery (w : Popup) : string :=
  "Activity query: " ++ feedFormURL w ++ nl.

Definition queryTable (rows : list string) : string :=
  resultsTable rows (Str "Ticket Status Query") (Str "query").

Definition activityTable (rows : list string) : string :=
  resultsTable rows (Str "JIRA Activity Query") Undefined.

(** The JSON of the test issue, and bodies of the examples. *)
Definition issuesBody (xs : list Issue) : json :=
  JObject [("issues", JArray (map jsonOfIssue xs)); ("total", JNumber (Num.of_Z 1))].

Definition nullIssueBody : json := JObject [("issues", JArray [JNull])].

(** The popup once start-up has run to its end after a project check
    that left the page [p]. *)
Definition ready (w : Popup) (p : Page) (store : Storage) : Popup :=
  {| page := p;
     resultHTML := resultHTML w; resultHidden := resultHidden w;
     projectValue := inputValue (stored store "project" (Str "Sunshine"));
     statusValue := statusValue w;
     daysValue := "1";
     userValue := inputValue (stored store "user" (Str "nyx.linden"));
     queryBound := true; feedBound := true |}.

(** The decimal digits of a natural number. *)
Definition decimal (n : nat) : string := Num.string_of_Z (Z.of_nat n).

Definition number_eqb (x y : Num.number) : bool :=
  match x, y with
  | S754_zero s, S754_zero s' => Bool.eqb s s'
  | S754_infinity s, S754_infinity s' => Bool.eqb s s'
  | S754_nan, S754_nan => true
  | S754_finite s m e, S754_finite s' m' e' =>
      Bool.eqb s s' && (m =? m')%positive && (e =? e')
  | _, _ => false
  end.

(** The number [n] prints as its decimal digits, and these digits read
    back as the number. *)
Definition printsAsDecimal (n : nat) : bool :=
  (Num.to_string (Num.of_Z (Z.of_nat n)) =? decimal n)%string
  && number_eqb (Num.of_string (decimal n)) (Num.of_Z (Z.of_nat n))
  && negb (is_empty (decimal n)).

(* ================================================================= *)
(** * Part II: properties *)
(* ================================================================= *)

(** ** Conversions *)

Lemma ToBoolean_false_iff (v : value) : ToBoolean v = false <-> falsy v.
Proof.
  unfold falsy; split.
  - destruct v as [| |b|n|s]; simpl; intros H; auto.
    + destruct b; [discriminate | auto].
    + destruct n as [[|]| | |]; simpl in H; try discriminate; auto 10.
    + destruct s; [auto | discriminate].
  - intros [H|[H|[H|[H|[H|[H|H]]]]]]; subst v; reflexivity.
Qed.

Lemma isNaN_true_iff (v : value) : isNaN v = true <-> notNumeric v.
Proof.
  unfold isNaN, notNumeric, Num.is_nan.
  destruct (ToNumber v); split; intros H; try reflexivity; discriminate.
Qed.

Lemma lt_zero (v : value) : lt v (num 0) = Num.ltb (ToNumber v) Num.pos_zero.
Proof. destruct v; reflexivity. Qed.

Lemma lt_zero_true_iff (v : value) : lt v (num 0) = true <-> negative v.
Proof.
  rewrite lt_zero. unfold negative, Num.ltb, SFltb, SFcompare, Num.pos_zero.
  destruct (ToNumber v) as [s|s| |s m e]; try destruct s; simpl;
    split; intros H; try reflexivity; try discriminate; try exact I; contradiction.
Qed.

Lemma strict_eq_str_true_iff (v : value) (s : string) :
  strict_eq_str v s = true <-> v = Str s.
Proof.
  destruct v; simpl; split; intros H; try discriminate.
  - apply String.eqb_eq in H. now subst.
  - inversion H. apply String.eqb_refl.
Qed.

Lemma daysTest_true_iff (d : value) : daysTest d = true <-> daysRejected d.
Proof.
  unfold daysTest, daysRejected.
  rewrite !orb_true_iff, strict_eq_str_true_iff, isNaN_true_iff, lt_zero_true_iff.
  tauto.
Qed.

(** ** White space *)

Lemma trim_start_all_ws (s : string) : all_ws s = true -> trim_start s = EmptyString.
Proof.
  induction s as [|c r IH]; simpl; [reflexivity|].
  intros H. apply andb_true_iff in H as [Hc Hr]. rewrite Hc. auto.
Qed.

Lemma of_string_whitespace (s : string) :
  all_ws s = true -> Num.of_string s = Num.pos_zero.
Proof.
  intros H. unfold Num.of_string, trim. now rewrite trim_start_all_ws.
Qed.

Lemma strip_ws_app (a b : string) : strip_ws (a ++ b) = strip_ws a ++ strip_ws b.
Proof.
  induction a as [|c a IH]; simpl; [reflexivity|].
  destruct (is_ws c); simpl; now rewrite IH.
Qed.

Lemma app_assoc_string (a b c : string) : (a ++ b) ++ c = a ++ b ++ c.
Proof. induction a as [|x a IH]; simpl; [reflexivity | now rewrite IH]. Qed.

Lemma occurs_in_here (s b : string) : occurs_in s (s ++ b).
Proof. exists EmptyString, b. reflexivity. Qed.

Lemma occurs_in_right (s a t : string) : occurs_in s t -> occurs_in s (a ++ t).
Proof.
  intros (x & y & ->). exists (a ++ x), y. now rewrite app_assoc_string.
Qed.

Lemma occurs_in_left (s t b : string) : occurs_in s t -> occurs_in s (t ++ b).
Proof.
  intros (x & y & ->). exists x, (y ++ b). now rewrite !app_assoc_string.
Qed.

(** ** The validator *)

Lemma isValid_messages (project status inStatusFor : value) :
  isValid project status inStatusFor =
  let ms := messages (negb (ToBoolean project)) (negb (ToBoolean status))
              (daysTest inStatusFor) in
  {| valid := is_nil ms; errors := ms |}.
Proof.
  unfold isValid, daysTest, messages, push.
  destruct (negb (ToBoolean project)), (negb (ToBoolean status)),
    (strict_eq_str inStatusFor "" || isNaN inStatusFor || lt inStatusFor (num 0));
    reflexivity.
Qed.

Lemma messages_distinct :
  invalidProject <> invalidStatus /\ invalidProject <> invalidStatusFor
  /\ invalidStatus <> invalidStatusFor.
Proof. repeat split; apply String.eqb_neq; reflexivity. Qed.

Lemma In_messages (a b c : bool) :
  (In invalidProject (messages a b c) <-> a = true)
  /\ (In invalidStatus (messages a b c) <-> b = true)
  /\ (In invalidStatusFor (messages a b c) <-> c = true).
Proof.
  destruct messages_distinct as (Hps & Hpd & Hsd).
  unfold messages.
  destruct a, b, c; simpl; repeat split; intros H; try reflexivity;
    try discriminate; auto;
    repeat (destruct H as [H|H]; try contradiction; try congruence).
Qed.

Lemma is_nil_messages (a b c : bool) :
  is_nil (messages a b c) = false <-> a = true \/ b = true \/ c = true.
Proof.
  destruct a, b, c; simpl; split; intros H; try reflexivity; try discriminate;
    auto; destruct H as [H|[H|H]]; discriminate.
Qed.

(** C1: the validator adds an error exactly when the project is falsy,
    when the status is falsy (the number zero included), and when the
    days value is the empty string, not numeric or negative; the errors
    come in the order project, status, days; three empty strings give
    three errors; ("Sunshine", 1, 1) is valid with no error; a status of
    zero is rejected and zero days are accepted. *)
Theorem isValid_checks :
  (forall project status inStatusFor : value,
     let r := isValid project status inStatusFor in
     (In invalidProject (errors r) <-> falsy project)
     /\ (In invalidStatus (errors r) <-> falsy status)
     /\ (In invalidStatusFor (errors r) <-> daysRejected inStatusFor)
     /\ (exists a b c, errors r = messages a b c)
     /\ (valid r = false <->
         falsy project \/ falsy status \/ daysRejected inStatusFor))
  /\ isValid (Str "") (Str "") (Str "")
     = {| valid := false;
          errors := [invalidProject; invalidStatus; invalidStatusFor] |}
  /\ isValid (Str "Sunshine") (num 1) (num 1) = {| valid := true; errors := [] |}
  /\ isValid (Str "Sunshine") (num 0) (num 1)
     = {| valid := false; errors := [invalidStatus] |}
  /\ isValid (Str "Sunshine") (num 1) (num 0) = {| valid := true; errors := [] |}.
Proof.
  split; [|repeat split; reflexivity].
  intros project status inStatusFor r. subst r.
  rewrite isValid_messages. cbv zeta. simpl errors. simpl valid.
  destruct (In_messages (negb (ToBoolean project)) (negb (ToBoolean status))
              (daysTest inStatusFor)) as (Hp & Hs & Hd).
  pose proof (is_nil_messages (negb (ToBoolean project))
                (negb (ToBoolean status)) (daysTest inStatusFor)) as Hv.
  rewrite negb_true_iff, ToBoolean_false_iff in Hp, Hs.
  rewrite !negb_true_iff, !ToBoolean_false_iff in Hv.
  rewrite daysTest_true_iff in Hd, Hv.
  repeat split; try tauto. eauto.
Qed.

(** C2: for every triple of inputs the validator returns a result (it is
    a total function and touches no state), and in that result [valid]
    holds exactly when [errors] is empty. *)
Theorem isValid_total_invariant :
  forall project status inStatusFor : value,
    exists r : Valid,
      isValid project status inStatusFor = r
      /\ (valid r = true <-> errors r = []).
Proof.
  intros project status inStatusFor. eexists; split; [reflexivity|].
  rewrite isValid_messages. cbv zeta. simpl.
  destruct (messages _ _ _); simpl; split; intros H; try reflexivity; discriminate.
Qed.

(** C10: with a truthy project and status, a days value that is a
    non-empty string of white space only is accepted: it is not the empty
    string, it converts to the number 0, and 0 is not negative. *)
Theorem isValid_whitespace_days :
  forall (project status : value) (days : string),
    ToBoolean project = true ->
    ToBoolean status = true ->
    whitespaceOnly days ->
    ToNumber (Str days) = Num.pos_zero
    /\ isValid project status (Str days) = {| valid := true; errors := [] |}.
Proof.
  intros project status days Hp Hs [Hne Hws].
  assert (Hn : ToNumber (Str days) = Num.pos_zero)
    by (simpl; now apply of_string_whitespace).
  split; [exact Hn|].
  rewrite isValid_messages. cbv zeta.
  assert (Hd : daysTest (Str days) = false).
  { unfold daysTest. rewrite lt_zero. unfold isNaN. rewrite Hn. simpl.
    destruct days; [congruence | reflexivity]. }
  now rewrite Hp, Hs, Hd.
Qed.

Lemma isValid_whitespace_days_witness :
  ToNumber (Str " ") = Num.pos_zero
  /\ isValid (Str "Sunshine") (num 1) (Str " ") = {| valid := true; errors := [] |}.
Proof.
  apply (isValid_whitespace_days (Str "Sunshine") (num 1) " ").
  - reflexivity.
  - reflexivity.
  - split; [discriminate | reflexivity].
Defined.

(** ** The URL builders *)

(** C3: the two URLs of the test-suite, the query URL with maxResults
    left out. *)
Theorem url_examples :
  queryURL (Str "Sunshine") (num 1) (num 1) Undefined
  = "https://jira.secondlife.com/rest/api/2/search?jql=project=Sunshine+and+status=1+and+status+changed+to+1+before+-1d&fields=id,status,key,assignee,summary&maxresults=100"
  /\ feedURL (Str "testuser")
     = "https://jira.secondlife.com/activity?maxResults=50&streams=user+IS+testuser&providers=issues".
Proof. split; vm_compute; reflexivity. Qed.

(** ** The issue mapper *)

Lemma strip_ws_queryItem (i : Issue) :
  strip_ws (queryItem i)
  = strip_ws (issueRowMarkup (ToString (key i))
                (ToString (description (status (fields i))))
                (ToString (iconUrl (status (fields i))))
                (ToString (name (status (fields i))))
                (ToString (summary (fields i)))).
Proof.
  unfold queryItem, issueRowMarkup. rewrite !strip_ws_app. reflexivity.
Qed.

Lemma queryItem_lines (i : Issue) :
  queryItem i
  = issueRowLines (ToString (key i))
      (ToString (description (status (fields i))))
      (ToString (iconUrl (status (fields i))))
      (ToString (name (status (fields i))))
      (ToString (summary (fields i))).
Proof.
  unfold queryItem, issueRowLines. cbn [String.concat].
  rewrite !app_assoc_string. reflexivity.
Qed.

(** C4: the issue mapper returns one row per issue, in the order of the
    issues; the row of an issue is exactly the markup of the cells key,
    status badge (icon and name in a span whose tooltip is the
    description) and summary, each value converted to a string and put
    in as it is; without its white space that row is the row of the
    specification without its white space; no issue gives no row; the
    issue of the test-suite gives the one row the test expects. *)
Theorem buildQueryItems_rows :
  (forall items : list Issue,
     List.length (buildQueryItems items) = List.length items
     /\ forall (n : nat) (i : Issue),
          nth_error items n = Some i ->
          exists row,
            nth_error (buildQueryItems items) n = Some row
            /\ row
               = issueRowLines (ToString (key i))
                   (ToString (description (status (fields i))))
                   (ToString (iconUrl (status (fields i))))
                   (ToString (name (status (fields i))))
                   (ToString (summary (fields i)))
            /\ strip_ws row
               = strip_ws (issueRowMarkup (ToString (key i))
                             (ToString (description (status (fields i))))
                             (ToString (iconUrl (status (fields i))))
                             (ToString (name (status (fields i))))
                             (ToString (summary (fields i)))))
  /\ buildQueryItems [] = []
  /\ buildQueryItems [testIssue]
     = [issueRowLines "1" "test" "testURL" "testName" "testSummary"]
  /\ map strip_ws (buildQueryItems [testIssue]) = [testRow]
  /\ strip_ws (issueRowMarkup "1" "test" "testURL" "testName" "testSummary")
     = testRow.
Proof.
  split; [|repeat split; reflexivity].
  intros items. unfold buildQueryItems. split.
  - apply length_map.
  - intros n i Hn. exists (queryItem i). split; [|split].
    + now apply map_nth_error.
    + apply queryItem_lines.
    + apply strip_ws_queryItem.
Qed.

Lemma buildQueryItems_rows_witness :
  exists row,
    nth_error (buildQueryItems [testIssue]) 0 = Some row
    /\ row = issueRowLines "1" "test" "testURL" "testName" "testSummary"
    /\ strip_ws row
       = strip_ws (issueRowMarkup "1" "test" "testURL" "testName" "testSummary").
Proof.
  exact (proj2 (proj1 buildQueryItems_rows [testIssue]) 0%nat testIssue eq_refl).
Defined.

(** ** The table renderer *)

Lemma join_empty_sep (rows : list string) : join "" rows = concatRows rows.
Proof.
  induction rows as [|r rest IH]; [reflexivity|].
  destruct rest as [|r' rest'].
  - simpl. clear IH. induction r; simpl; congruence.
  - change (join "" (r :: r' :: rest')) with (r ++ "" ++ join "" (r' :: rest')).
    rewrite IH. reflexivity.
Qed.

Lemma tableHead_query (kind : value) :
  (kind = Str "query" -> tableHead (default Null kind) = queryHeader)
  /\ (kind <> Str "query" -> tableHead (default Null kind) = activityHeader).
Proof.
  unfold tableHead. split.
  - intros ->. reflexivity.
  - intros Hk.
    destruct (strict_eq_str (default Null kind) "query") eqn:E; [|reflexivity].
    apply strict_eq_str_true_iff in E. destruct kind; simpl in E; congruence.
Qed.

Lemma resultsTable_frame (rows : list string) (heading kind : value) :
  resultsTable rows heading kind
  = tableFrame (ToString heading) (tableHead (default Null kind))
      (tableBody rows heading).
Proof. reflexivity. Qed.

(** C5: the rendered table is the heading line "<heading> Results" and a
    table whose header row is Issue, Status, Summary for the kind "query"
    and Date, Activity for any other kind, and whose body is the rows one
    after the other when there are rows, and otherwise the single row
    "There are no <heading> results" and nothing else. *)
Theorem resultsTable_structure :
  forall (rows : list string) (heading kind : value),
    exists header body : string,
      resultsTable rows heading kind = tableFrame (ToString heading) header body
      /\ (kind = Str "query" ->
          header = "<tr><th>Issue</th><th>Status</th><th>Summary</th></tr>")
      /\ (kind <> Str "query" ->
          header = "<tr><th>Date</th><th>Activity</th></tr>")
      /\ (rows <> [] -> body = concatRows rows)
      /\ (rows = [] ->
          body = "<tr><td colspan=" ++ dq ++ "3" ++ dq ++ ">There are no "
                 ++ ToString heading ++ " results</td></tr>").
Proof.
  intros rows heading kind.
  exists (tableHead (default Null kind)), (tableBody rows heading).
  destruct (tableHead_query kind) as [Hq Ha].
  repeat split; auto using resultsTable_frame.
  - intros Hne. unfold tableBody. destruct rows; [congruence|].
    simpl negb. apply join_empty_sep.
  - intros ->. reflexivity.
Qed.

Lemma resultsTable_structure_witness :
  exists header body : string,
    resultsTable [queryItem testIssue] (Str "test query") (Str "query")
    = tableFrame "test query" header body
    /\ header = "<tr><th>Issue</th><th>Status</th><th>Summary</th></tr>"
    /\ body = concatRows [queryItem testIssue].
Proof.
  destruct (resultsTable_structure [queryItem testIssue] (Str "test query")
              (Str "query")) as (header & body & Hframe & Hq & _ & Hrows & _).
  exists header, body. split; [exact Hframe|]. split.
  - apply Hq. reflexivity.
  - apply Hrows. discriminate.
Defined.


(** The table test of the test-suite: the rendered table of the test
    issue, without white space. *)
Example resultsTable_test :
  strip_ws (resultsTable (buildQueryItems [testIssue]) (Str "test query") (Str "query"))
  = "<h5>testqueryResults</h5><tablewidth=" ++ dq ++ "100%" ++ dq
    ++ "><thead><tr><th>Issue</th><th>Status</th><th>Summary</th></tr></thead><tbody>"
    ++ testRow ++ "</tbody></table>".
Proof. vm_compute. reflexivity. Qed.

(** C9: with no rows, the body is the empty-state row with the attribute
    colspan="3" whatever the kind is, also under the two-column header
    Date, Activity of a kind other than "query". *)
Theorem resultsTable_empty_colspan :
  forall heading kind : value,
    exists header : string,
      resultsTable [] heading kind
      = tableFrame (ToString heading) header
          ("<tr><td colspan=" ++ dq ++ "3" ++ dq ++ ">There are no "
           ++ ToString heading ++ " results</td></tr>")
      /\ (kind <> Str "query" ->
          header = "<tr><th>Date</th><th>Activity</th></tr>")
      /\ occurs_in ("colspan=" ++ dq ++ "3" ++ dq) (resultsTable [] heading kind).
Proof.
  intros heading kind. exists (tableHead (default Null kind)).
  split; [reflexivity|]. split; [apply tableHead_query|].
  rewrite resultsTable_frame. unfold tableFrame, tableBody.
  do 25 apply occurs_in_right. apply occurs_in_left.
  exists "<tr><td ", (">There are no " ++ ToString heading ++ " results</td></tr>").
  reflexivity.
Qed.

Lemma resultsTable_empty_colspan_witness :
  exists header : string,
    resultsTable [] (Str "JIRA Activity Query") Undefined
    = tableFrame "JIRA Activity Query" header
        ("<tr><td colspan=" ++ dq ++ "3" ++ dq
         ++ ">There are no JIRA Activity Query results</td></tr>")
    /\ header = "<tr><th>Date</th><th>Activity</th></tr>".
Proof.
  destruct (resultsTable_empty_colspan (Str "JIRA Activity Query") Undefined)
    as (header & Hframe & Hheader & _).
  exists header. split; [exact Hframe|]. apply Hheader. discriminate.
Defined.


(** ** The activity mapper *)

Lemma feedItem_lines (h : Host) (updated html : string) :
  feedItem h updated html
  = activityRowLines (toLocaleString h updated)
      (htmlBodyText h ("<!doctype html><body>" ++ html)).
Proof.
  unfold feedItem, domify, activityRowLines. cbn [String.concat].
  rewrite !app_assoc_string. reflexivity.
Qed.

Lemma feedLoop_rows (h : Host) (entries : list node) :
  forall items : list string,
    feedLoop h entries items
    = if forallb entryComplete entries
      then Return (items ++ map (entryRow h) entries)%list
      else Throw TypeError.
Proof.
  induction entries as [|e rest IH]; intros items; simpl.
  - now rewrite app_nil_r.
  - unfold entryComplete at 1, entryRow at 1.
    destruct (getElementsByTagName e "title") as [|t ts]; [reflexivity|].
    destruct (getElementsByTagName e "updated") as [|u us]; [reflexivity|].
    simpl. rewrite IH, feedItem_lines. unfold push.
    destruct (forallb entryComplete rest); [|reflexivity].
    now rewrite <- app_assoc.
Qed.

(** C6, as the code has it: without a feed element anywhere in the
    document the mapper throws; with one, it takes the first, and when
    every entry element below it has a title and an updated element it
    returns one row per such entry, in document order; the row of an
    entry is exactly the markup of two cells, the first with the content
    of the entry's first updated element reformatted as a date, the
    second with the content of its first title element reduced to the
    text of that HTML fragment; when an entry lacks one of the two
    elements, the mapper throws. *)
Theorem buildFeedItems_rows :
  forall (h : Host) (doc : node),
    match documentElementsByTagName doc "feed" with
    | [] => buildFeedItems h doc = Throw TypeError
    | feed :: _ =>
        if forallb entryComplete (getElementsByTagName feed "entry")
        then buildFeedItems h doc
             = Return (map (entryRow h) (getElementsByTagName feed "entry"))
        else buildFeedItems h doc = Throw TypeError
    end.
Proof.
  intros h doc. unfold buildFeedItems.
  destruct (documentElementsByTagName doc "feed") as [|feed rest]; [reflexivity|].
  simpl. rewrite feedLoop_rows.
  destruct (forallb entryComplete (getElementsByTagName feed "entry")); reflexivity.
Qed.

Lemma buildFeedItems_rows_witness :
  buildFeedItems plainHost feedOfOne = Return [entryRow plainHost completeEntry].
Proof. exact (buildFeedItems_rows plainHost feedOfOne). Defined.


(** C6, as stated, fails: a document whose root is a feed element with
    one entry child makes the mapper throw when the entry has no title,
    and an entry that is not a child of the feed element gets a row. *)
Lemma buildFeedItems_not_every_feed :
  documentElementsByTagName feedWithoutTitle "feed" = [feedWithoutTitle]
  /\ List.length (filter (has_tag "entry") (childrenOf feedWithoutTitle)) = 1%nat
  /\ buildFeedItems plainHost feedWithoutTitle = Throw TypeError
  /\ filter (has_tag "entry") (childrenOf feedWithNestedEntry) = []
  /\ buildFeedItems plainHost feedWithNestedEntry
     = Return [entryRow plainHost completeEntry].
Proof. repeat split; reflexivity. Qed.

(** ** Requests *)

Lemma case_401 {A} (z : Z) (a b : A) :
  z <> 401 -> match z with 401 => a | _ => b end = b.
Proof.
  intros Hz. destruct z as [|q|q]; try reflexivity.
  do 9 (destruct q as [q|q|]; try reflexivity). congruence.
Qed.

Lemma joinWith_strings (sep : string) (msgs : list string) :
  joinWith jsonToString sep (map JString msgs) = Return (join sep msgs).
Proof.
  induction msgs as [|m rest IH]; [reflexivity|].
  destruct rest as [|m' rest']; [reflexivity|].
  change (joinWith jsonToString sep (map JString (m :: m' :: rest')))
    with (rbind (joinWith jsonToString sep (map JString (m' :: rest')))
            (fun b => Return (m ++ sep ++ b))).
  now rewrite IH.
Qed.

Lemma handleError_status (j : json) (z : Z) (message : string) (p : Page) :
  (if z =? 401 then Return loginMessage else errorMessagesJoin j "</br>")
  = Return message ->
  handleError j (Some z) p
  = (Return tt,
     {| statusHTML := "ERROR. " ++ message;
        statusHidden := false;
        requests := requests p |}).
Proof.
  unfold handleError, bind. destruct (Z.eqb_spec z 401) as [->|Hz].
  - intros [= <-]. reflexivity.
  - intros Hj. rewrite (case_401 z _ _ Hz). unfold lift. now rewrite Hj.
Qed.

Lemma handleError_network (p : Page) :
  handleError networkError None p
  = (Return tt,
     {| statusHTML := "ERROR. Network Error";
        statusHidden := false;
        requests := requests p |}).
Proof. reflexivity. Qed.

(** What the catch clause makes of a failure inside the try block: a
    non-OK response whose body is not JSON, or whose errorMessages cannot
    be joined under a status other than 401, ends like a request that
    could not complete. *)
Lemma make_request_caught (net : Network) (h : Host) (url : string)
  (responseType : value) (p : Page) (r : Response) :
  net url = Some r ->
  ok r = false ->
  (exists e, bodyJson r = Throw e)
  \/ (exists j e, bodyJson r = Return j /\ statusCode r <> 401
                  /\ errorMessagesJoin j "</br>" = Throw e) ->
  make_request net h url responseType p
  = (Return RUndefined, failedWith p url "Network Error").
Proof.
  intros Hnet Hok H. unfold make_request, bind, try_catch, fetch.
  rewrite Hnet, Hok. cbn [negb]. cbv beta iota. unfold lift.
  destruct H as [[e He] | (j & e & Hj & Hz & He)].
  - rewrite He. reflexivity.
  - rewrite Hj. unfold handleError, bind. rewrite (case_401 _ _ _ Hz).
    unfold lift. rewrite He. reflexivity.
Qed.

(** X24: when the request could not complete, the status line gets the
    error "Network Error"; for a non-OK response whose body parses as
    JSON it gets, as an error, the logged-in message under status 401,
    and under any other status the errorMessages array of the body
    joined with "</br>" (for an array of strings, those strings); in
    each case exactly one request was sent. *)
Theorem make_request_failure :
  forall (net : Network) (h : Host) (url : string) (responseType : value)
         (p : Page),
    (net url = None ->
     make_request net h url responseType p
     = (Return RUndefined, failedWith p url "Network Error"))
    /\ (forall (r : Response) (j : json),
          net url = Some r -> ok r = false -> bodyJson r = Return j ->
          statusCode r = 401 ->
          make_request net h url responseType p
          = (Return RFalse, failedWith p url loginMessage))
    /\ (forall (r : Response) (j : json) (message : string),
          net url = Some r -> ok r = false -> bodyJson r = Return j ->
          statusCode r <> 401 ->
          errorMessagesJoin j "</br>" = Return message ->
          make_request net h url responseType p
          = (Return RFalse, failedWith p url message))
    /\ (forall (members : list (string * json)) (msgs : list string),
          member "errorMessages" members = Some (JArray (map JString msgs)) ->
          errorMessagesJoin (JObject members) "</br>"
          = Return (join "</br>" msgs)).
Proof.
  intros net h url responseType p. repeat split.
  - intros Hnet. unfold make_request, bind, try_catch, fetch.
    rewrite Hnet. reflexivity.
  - intros r j Hnet Hok Hj Hz. unfold make_request, bind, try_catch, fetch.
    rewrite Hnet, Hok. cbn [negb]. cbv beta iota. unfold lift. rewrite Hj.
    rewrite (handleError_status j (statusCode r) loginMessage)
      by (rewrite Hz; reflexivity).
    reflexivity.
  - intros r j message Hnet Hok Hj Hz Hm.
    unfold make_request, bind, try_catch, fetch.
    rewrite Hnet, Hok. cbn [negb]. cbv beta iota. unfold lift. rewrite Hj.
    rewrite (handleError_status j (statusCode r) message).
    + reflexivity.
    + apply Z.eqb_neq in Hz. now rewrite Hz.
  - intros members msgs Hm. unfold errorMessagesJoin. rewrite Hm.
    apply joinWith_strings.
Qed.

Lemma make_request_failure_witness :
  make_request offline plainHost (feedURL (Str "nyx.linden")) Undefined blankPage
  = (Return RUndefined,
     failedWith blankPage (feedURL (Str "nyx.linden")) "Network Error")
  /\ make_request (always unauthorizedJson) plainHost
       (feedURL (Str "nyx.linden")) Undefined blankPage
     = (Return RFalse,
        failedWith blankPage (feedURL (Str "nyx.linden")) loginMessage)
  /\ make_request (always badRequest) plainHost
       (feedURL (Str "nyx.linden")) Undefined blankPage
     = (Return RFalse,
        failedWith blankPage (feedURL (Str "nyx.linden"))
          "Field 'statu' does not exist.</br>Not able to sort.").
Proof.
  split; [|split].
  - apply (make_request_failure offline plainHost
             (feedURL (Str "nyx.linden")) Undefined blankPage).
    reflexivity.
  - apply (proj1 (proj2 (make_request_failure (always unauthorizedJson) plainHost
             (feedURL (Str "nyx.linden")) Undefined blankPage))
             unauthorizedJson
             (JObject [("errorMessages", JArray [JString "Login Required"]);
                       ("errors", JObject [])]));
      reflexivity.
  - apply (proj1 (proj2 (proj2 (make_request_failure (always badRequest) plainHost
             (feedURL (Str "nyx.linden")) Undefined blankPage)))
             badRequest
             (JObject [("errorMessages",
                        JArray [JString "Field 'statu' does not exist.";
                                JString "Not able to sort."]);
                       ("errors", JObject [])]));
      try reflexivity. discriminate.
Defined.

(** C7: a response with status 401 whose body is not JSON.  The case 401
    of handleError needs nothing from the body, but make_request awaits
    response.json() before it calls handleError, inside the try block;
    the failure of the parse lands in the catch clause, and the status
    line ends with "Network Error" where the logged-in message
    belongs. *)
Lemma make_request_unauthorized_html :
  ok unauthorizedHtml = false
  /\ statusCode unauthorizedHtml = 401
  /\ statusHTML (snd (make_request (always unauthorizedHtml) plainHost
                        "https://jira.secondlife.com/rest/api/2/project/SUN"
                        (Str "json") blankPage))
     = "ERROR. Network Error"
  /\ "ERROR. Network Error" <> "ERROR. " ++ loginMessage
  /\ (forall (j : json) (p : Page),
        statusHTML (snd (handleError j (Some 401) p)) = "ERROR. " ++ loginMessage).
Proof. repeat split. discriminate. Qed.

(** ** Purity *)

(** The length of an array as a condition: a positive integer converts to
    a Number that is neither zero nor NaN. *)

Lemma digits2_pos_lower (m : positive) : 2 ^ (Zpos (digits2_pos m) - 1) <= Zpos m.
Proof.
  induction m as [m IH|m IH|]; simpl digits2_pos.
  - rewrite Pos2Z.inj_succ.
    replace (Z.succ (Zpos (digits2_pos m)) - 1)
      with (Z.succ (Zpos (digits2_pos m) - 1)) by lia.
    rewrite Z.pow_succ_r by lia.
    generalize dependent (2 ^ (Zpos (digits2_pos m) - 1)). intros; lia.
  - rewrite Pos2Z.inj_succ.
    replace (Z.succ (Zpos (digits2_pos m)) - 1)
      with (Z.succ (Zpos (digits2_pos m) - 1)) by lia.
    rewrite Z.pow_succ_r by lia.
    generalize dependent (2 ^ (Zpos (digits2_pos m) - 1)). intros; lia.
  - simpl. lia.
Qed.

Lemma shr_1_lower (j : Z) (mrs : shr_record) :
  0 <= j -> 2 ^ (j + 1) <= shr_m mrs -> 2 ^ j <= shr_m (shr_1 mrs).
Proof.
  intros Hj H. destruct mrs as [m r s]. simpl in *.
  assert (Hp : 0 < 2 ^ j) by (apply Z.pow_pos_nonneg; lia).
  rewrite Z.add_1_r, Z.pow_succ_r in H by lia.
  generalize dependent (2 ^ j). intros x H Hp.
  destruct m as [|[p|p|]|p]; simpl; lia.
Qed.

Lemma iter_shr_1_lower (p : positive) :
  forall (j : Z) (mrs : shr_record),
    0 <= j -> 2 ^ (j + Zpos p) <= shr_m mrs ->
    2 ^ j <= shr_m (iter_pos shr_1 p mrs).
Proof.
  induction p as [p IH|p IH|]; intros j mrs Hj H; simpl.
  - apply IH; [lia|]. apply IH; [lia|]. apply shr_1_lower; [lia|].
    replace (j + Zpos p + Zpos p + 1) with (j + Zpos p~1) by lia. exact H.
  - apply IH; [lia|]. apply IH; [lia|].
    replace (j + Zpos p + Zpos p) with (j + Zpos p~0) by lia. exact H.
  - apply shr_1_lower; assumption.
Qed.

Lemma shr_fexp_pos (m e : Z) (l : location) :
  0 < m -> emin Num.prec Num.emax <= e ->
  1 <= shr_m (fst (shr_fexp Num.prec Num.emax m e l))
  /\ emin Num.prec Num.emax <= snd (shr_fexp Num.prec Num.emax m e l).
Proof.
  intros Hm He. destruct m as [|p|p]; try lia.
  unfold shr_fexp, shr. simpl Zdigits2.
  assert (Hrec : shr_m (shr_record_of_loc (Zpos p) l) = Zpos p)
    by (destruct l as [|[]]; reflexivity).
  pose proof (digits2_pos_lower p) as Hd.
  destruct (fexp Num.prec Num.emax (Zpos (digits2_pos p) + e) - e) as [|q|q] eqn:Hk;
    simpl fst; simpl snd.
  - rewrite Hrec. lia.
  - split; [|lia].
    change 1 with (2 ^ 0). apply iter_shr_1_lower; [lia|]. rewrite Hrec.
    apply Z.le_trans with (2 ^ (Zpos (digits2_pos p) - 1)); [|exact Hd].
    apply Z.pow_le_mono_r; [lia|].
    unfold fexp, emin, Num.prec, Num.emax in *. lia.
  - rewrite Hrec. lia.
Qed.

Lemma round_nearest_even_lower (m : Z) (l : location) : m <= round_nearest_even m l.
Proof. destruct l as [|[]]; simpl; try lia. destruct (Z.even m); lia. Qed.

Lemma binary_round_aux_pos (s : bool) (m e : Z) (l : location) :
  0 < m -> emin Num.prec Num.emax <= e ->
  match binary_round_aux Num.prec Num.emax s m e l with
  | S754_zero _ | S754_nan => False
  | _ => True
  end.
Proof.
  intros Hm He. unfold binary_round_aux.
  destruct (shr_fexp_pos m e l Hm He) as [H1 H2].
  destruct (shr_fexp Num.prec Num.emax m e l) as [mrs' e']. simpl in H1, H2.
  pose proof (round_nearest_even_lower (shr_m mrs') (loc_of_shr_record mrs')) as Hr.
  destruct (shr_fexp_pos (round_nearest_even (shr_m mrs') (loc_of_shr_record mrs'))
              e' loc_Exact ltac:(lia) H2) as [H3 _].
  destruct (shr_fexp Num.prec Num.emax _ e' loc_Exact) as [mrs'' e''].
  simpl in H3. destruct (shr_m mrs'') as [|q|q]; try lia.
  destruct (e'' <=? Num.emax - Num.prec); exact I.
Qed.

Lemma of_Z_pos (p : positive) :
  Num.is_zero (Num.of_Z (Zpos p)) = false /\ Num.is_nan (Num.of_Z (Zpos p)) = false.
Proof.
  unfold Num.of_Z, binary_normalize, binary_round.
  destruct (shl_align p 0 (fexp Num.prec Num.emax (Zpos (digits2_pos p) + 0)))
    as [mz ez] eqn:Hs.
  assert (He : emin Num.prec Num.emax <= ez).
  { unfold shl_align in Hs.
    destruct (fexp Num.prec Num.emax (Zpos (digits2_pos p) + 0) - 0) eqn:Hk;
      injection Hs as <- <-; unfold fexp, emin, Num.prec, Num.emax in *; lia. }
  pose proof (binary_round_aux_pos false (Zpos mz) ez loc_Exact ltac:(lia) He) as H.
  destruct (binary_round_aux Num.prec Num.emax false (Zpos mz) ez loc_Exact);
    try contradiction; split; reflexivity.
Qed.

Lemma truthy_length (rows : list string) :
  truthyVal (VPrim (num (Z.of_nat (List.length rows))))
  = negb (Nat.eqb (List.length rows) 0).
Proof.
  destruct rows as [|r rows]; [reflexivity|].
  cbn [List.length Nat.eqb negb truthyVal ToBoolean num].
  rewrite Nat2Z.inj_succ, <- Z.add_1_r.
  destruct (Z.of_nat (List.length rows) + 1) as [|p|p] eqn:E; try lia.
  destruct (of_Z_pos p) as [Hz Hn]. now rewrite Hz, Hn.
Qed.

Lemma append_nil_r (s : string) : s ++ "" = s.
Proof. induction s as [|c s IH]; simpl; [reflexivity | now rewrite IH]. Qed.

Lemma effectFree_eval (e : expr) :
  forall en : env, effectFree e = true ->
    exists r, forall w : Popup, eval en e w = (r, w).
Proof.
  induction e as [x|s|z|b| | |a IHa|a IHa b IHb|a IHa s|c IHc a IHa b IHb
                  |a IHa|a IHa sep|x a IHa b IHb|f|f a IHa|a IHa b IHb];
    intros en H; simpl in H; try discriminate;
    try (eexists; intros w; reflexivity).
  - destruct (IHa en H) as [[v|e] Hr]; eexists; intros w; simpl;
      unfold pbind; rewrite Hr; reflexivity.
  - apply andb_true_iff in H as [Ha Hb].
    destruct (IHa en Ha) as [[v|e] Hra]; [destruct (IHb en Hb) as [[v'|e] Hrb]|];
      eexists; intros w; simpl; unfold pbind; rewrite Hra, ?Hrb; reflexivity.
  - destruct (IHa en H) as [[v|e] Hr]; eexists; intros w; simpl;
      unfold pbind; rewrite Hr; reflexivity.
  - apply andb_true_iff in H as [H Hb]. apply andb_true_iff in H as [Hc Ha].
    destruct (IHc en Hc) as [[v|e] Hrc].
    + destruct (truthyVal v) eqn:Ht.
      * destruct (IHa en Ha) as [r Hr]. exists r. intros w. simpl. unfold pbind.
        rewrite Hrc, Ht. apply Hr.
      * destruct (IHb en Hb) as [r Hr]. exists r. intros w. simpl. unfold pbind.
        rewrite Hrc, Ht. apply Hr.
    + eexists; intros w; simpl; unfold pbind; rewrite Hrc; reflexivity.
  - destruct (IHa en H) as [[v|e] Hr].
    + destruct v as [[| |b|n|s]|rows]; eexists; intros w; simpl; unfold pbind;
        rewrite Hr; reflexivity.
    + eexists; intros w; simpl; unfold pbind; rewrite Hr; reflexivity.
  - destruct (IHa en H) as [[v|e] Hr].
    + destruct v as [p|rows]; eexists; intros w; simpl; unfold pbind;
        rewrite Hr; reflexivity.
    + eexists; intros w; simpl; unfold pbind; rewrite Hr; reflexivity.
  - apply andb_true_iff in H as [Ha Hb].
    destruct (IHa en Ha) as [[v|e] Hra].
    + destruct (IHb ((x, v) :: en) Hb) as [r Hr]. exists r. intros w. simpl.
      unfold pbind. rewrite Hra. apply Hr.
    + eexists; intros w; simpl; unfold pbind; rewrite Hra; reflexivity.
  - apply andb_true_iff in H as [Ha Hb].
    destruct (IHa en Ha) as [[v|e] Hra].
    + destruct (IHb en Hb) as [r Hr]. exists r. intros w. simpl.
      unfold pbind. rewrite Hra. apply Hr.
    + eexists; intros w; simpl; unfold pbind; rewrite Hra; reflexivity.
Qed.

Lemma bindParams_effectFree (ps : list (string * option expr)) :
  forallb (fun pd => match snd pd with Some d => effectFree d | None => true end) ps
  = true ->
  forall (args : list jsval) (en : env),
    exists r, forall w : Popup, bindParams ps args en w = (r, w).
Proof.
  induction ps as [|[x d] ps IH]; intros H args en.
  - eexists; intros w; reflexivity.
  - simpl in H. apply andb_true_iff in H as [Hd Hps].
    assert (Hv : exists r, forall w : Popup,
               (match d with
                | Some e =>
                    match hd (VPrim Undefined) args with
                    | VPrim Undefined => eval en e
                    | a => pret a
                    end
                | None => pret (hd (VPrim Undefined) args)
                end) w = (r, w)).
    { destruct d as [e|], (hd (VPrim Undefined) args) as [[| |b|n|s]|rows];
        try (eexists; intros w; reflexivity).
      apply effectFree_eval. exact Hd. }
    destruct Hv as [[v|e] Hv].
    + destruct (IH Hps (tl args) ((x, v) :: en)) as [r Hr]. exists r. intros w.
      simpl. unfold pbind. rewrite Hv. apply Hr.
    + eexists. intros w. simpl. unfold pbind. rewrite Hv. reflexivity.
Qed.

Lemma call_effectFree (f : func) (args : list jsval) :
  pureFunc f = true -> exists r, forall w : Popup, call f args w = (r, w).
Proof.
  intros H. apply andb_true_iff in H as [Hp Hb]. unfold call.
  destruct (bindParams_effectFree (params f) Hp args []) as [[en|e] Hen].
  - destruct (effectFree_eval (body f) en Hb) as [r Hr]. exists r. intros w.
    unfold pbind. rewrite Hen. apply Hr.
  - eexists. intros w. unfold pbind. rewrite Hen. reflexivity.
Qed.

Lemma call_queryURL (project status inStatusFor maxResults : value) (w : Popup) :
    call queryURL_js [VPrim project; VPrim status; VPrim inStatusFor; VPrim maxResults] w
    = (Return (VPrim (Str (queryURL project status inStatusFor maxResults))), w).
Proof.
  unfold queryURL. cbv zeta.
  destruct maxResults; cbv [call queryURL_js params body bindParams hd tl pbind pret
    eval template fold_right lookup String.eqb Ascii.eqb Bool.eqb stringOf default];
    rewrite ?append_nil_r; cbn [ToString]; reflexivity.
Qed.

Lemma call_feedURL (user : value) (w : Popup) :
  call feedURL_js [VPrim user] w = (Return (VPrim (Str (feedURL user))), w).
Proof.
  unfold feedURL.
  cbv [call feedURL_js params body bindParams hd tl pbind pret
    eval template fold_right lookup String.eqb Ascii.eqb Bool.eqb stringOf].
  rewrite ?append_nil_r; cbn [ToString]; reflexivity.
Qed.

Lemma call_resultsTable (rows : list string) (heading kind : value) (w : Popup) :
  call resultsTable_js [VArray rows; VPrim heading; VPrim kind] w
  = (Return (VPrim (Str (resultsTable rows heading kind))), w).
Proof.
  rewrite resultsTable_frame. unfold tableFrame, tableHead, tableBody, emptyRow.
  pose proof (truthy_length rows) as Hlen.
  destruct kind;
    cbv [call resultsTable_js params body bindParams hd tl pbind pret plift
      eval template fold_right lookup String.eqb Ascii.eqb Bool.eqb stringOf default];
    rewrite Hlen;
    (destruct (negb (Nat.eqb (List.length rows) 0));
     [| cbv [eval template fold_right lookup String.eqb Ascii.eqb Bool.eqb stringOf
             pbind pret]];
     cbn [ToString strict_eq_str truthyVal ToBoolean];
     try (destruct (String.eqb _ "query"));
     rewrite ?append_nil_r, ?app_assoc_string; reflexivity).
Qed.

Lemma builders_effectFree :
  pureFunc queryURL_js = true /\ pureFunc feedURL_js = true
  /\ pureFunc resultsTable_js = true /\ pureFunc updateStatus_js = false.
Proof. repeat split. Qed.

(** The same evaluation carries the assignments of updateStatus to the
    popup. *)
Lemma call_updateStatus (message : string) (error : bool) (w : Popup) :
  call updateStatus_js [VPrim (Str message); VPrim (Bool error)] w
  = (Return (VPrim Undefined), withPage w (snd (updateStatus message error (page w)))).
Proof.
  destruct error;
    cbv [call updateStatus_js params body bindParams hd tl pbind pret
      eval template fold_right lookup String.eqb Ascii.eqb Bool.eqb stringOf
      truthyVal ToBoolean];
    rewrite ?append_nil_r; reflexivity.
Qed.

(** C8: the bodies of queryURL, feedURL and resultsTable, run as programs
    that could read and assign the properties of the cached elements, do
    neither.  Called on any arguments in any state of the popup, each of
    them returns, leaves the popup exactly as it was, and gives a string
    that does not depend on that state: the string of the builder for
    these arguments.  Two calls with the same inputs therefore give the
    same string, whatever happened to the popup in between. *)
Theorem builders_pure :
  forall (project status inStatusFor maxResults user heading kind : value)
         (rows : list string) (w : Popup),
    call queryURL_js
      [VPrim project; VPrim status; VPrim inStatusFor; VPrim maxResults] w
    = (Return (VPrim (Str (queryURL project status inStatusFor maxResults))), w)
    /\ call feedURL_js [VPrim user] w
       = (Return (VPrim (Str (feedURL user))), w)
    /\ call resultsTable_js [VArray rows; VPrim heading; VPrim kind] w
       = (Return (VPrim (Str (resultsTable rows heading kind))), w).
Proof.
  intros. split; [apply call_queryURL|].
  split; [apply call_feedURL | apply call_resultsTable].
Qed.

(* ================================================================= *)
(** * Part III: further properties of main.js *)
(* ================================================================= *)

(** ** Every outcome of a request *)

Lemma handleError_message (j : json) (z : Z) (p : Page) :
  handleError j (Some z) p
  = match (if z =? 401 then Return loginMessage else errorMessagesJoin j "</br>") with
    | Return message => (Return tt, noted p ("ERROR. " ++ message))
    | Throw e => (Throw e, p)
    end.
Proof.
  unfold handleError, bind, lift, ret. destruct (Z.eqb_spec z 401) as [->|Hz].
  - reflexivity.
  - rewrite (case_401 z _ _ Hz).
    destruct (errorMessagesJoin j "</br>"); reflexivity.
Qed.

Lemma make_request_outcome (net : Network) (h : Host) (url : string)
  (responseType : value) (p : Page) :
  make_request net h url responseType p
  = match net url with
    | None => (Return RUndefined, failedWith p url "Network Error")
    | Some r =>
        if ok r then (bodyOf h r responseType, sent p url)
        else match errorMessageOf r with
             | Return message => (Return RFalse, failedWith p url message)
             | Throw _ => (Return RUndefined, failedWith p url "Network Error")
             end
    end.
Proof.
  unfold make_request, bind, try_catch, fetch.
  destruct (net url) as [r|]; [|reflexivity].
  destruct (ok r); cbn [negb]; cbv beta iota.
  - unfold ret, handleResponse, bodyOf, bind, lift, ret.
    destruct (strict_eq_str responseType "json");
      [destruct (bodyJson r) | destruct (bodyText r)]; reflexivity.
  - unfold errorMessageOf, lift. destruct (bodyJson r) as [j|e]; [|reflexivity].
    rewrite handleError_message. simpl rbind.
    destruct (if statusCode r =? 401 then Return loginMessage
              else errorMessagesJoin j "</br>"); reflexivity.
Qed.

(** X1: whatever the network answers and whatever becomes of the answer,
    a call of make_request sends exactly one request, to the URL it was
    given. *)
Theorem make_request_one_request :
  forall (net : Network) (h : Host) (url : string) (responseType : value)
         (p : Page),
    requests (snd (make_request net h url responseType p))
    = (requests p ++ [url])%list.
Proof.
  intros. rewrite make_request_outcome.
  destruct (net url) as [r|]; [|reflexivity].
  destruct (ok r); [reflexivity|]. destruct (errorMessageOf r); reflexivity.
Qed.

(** X2: for an OK response make_request resolves to the parsed JSON body
    when "json" was asked for, and to the XML document parsed from the
    text of the body otherwise; the status line is left as it was. *)
Theorem make_request_success :
  forall (net : Network) (h : Host) (url : string) (responseType : value)
         (p : Page) (r : Response),
    net url = Some r -> ok r = true ->
    (forall j, responseType = Str "json" -> bodyJson r = Return j ->
       make_request net h url responseType p = (Return (RJson j), sent p url))
    /\ (forall t, responseType <> Str "json" -> bodyText r = Return t ->
          make_request net h url responseType p
          = (Return (RDocument (parseXML h t)), sent p url)).
Proof.
  intros net h url responseType p r Hnet Hok.
  rewrite make_request_outcome, Hnet, Hok. unfold bodyOf. split.
  - intros j -> Hj. simpl. now rewrite Hj.
  - intros t Hrt Ht.
    destruct (strict_eq_str responseType "json") eqn:E.
    + apply strict_eq_str_true_iff in E. contradiction.
    + now rewrite Ht.
Qed.

Lemma make_request_success_witness :
  make_request (always (okJson (JObject []))) plainHost projectURL jsonResponse blankPage
  = (Return (RJson (JObject [])), sent blankPage projectURL)
  /\ make_request (always (okText "<feed/>")) plainHost projectURL Undefined blankPage
     = (Return (RDocument (parseXML plainHost "<feed/>")), sent blankPage projectURL).
Proof.
  split.
  - apply (proj1 (make_request_success (always (okJson (JObject []))) plainHost
                    projectURL jsonResponse blankPage (okJson (JObject []))
                    eq_refl eq_refl)); reflexivity.
  - apply (proj2 (make_request_success (always (okText "<feed/>")) plainHost
                    projectURL Undefined blankPage (okText "<feed/>")
                    eq_refl eq_refl)); [discriminate | reflexivity].
Defined.

(** X3: when the body of an OK response cannot be read as asked,
    make_request throws the failure of the read: the catch clause does
    not see it, and the status line shows no error. *)
Theorem make_request_unread_body_throws :
  forall (net : Network) (h : Host) (url : string) (responseType : value)
         (p : Page) (r : Response) (e : error),
    net url = Some r -> ok r = true ->
    (if strict_eq_str responseType "json" then bodyJson r = Throw e
     else bodyText r = Throw e) ->
    make_request net h url responseType p = (Throw e, sent p url).
Proof.
  intros net h url responseType p r e Hnet Hok Hbody.
  rewrite make_request_outcome, Hnet, Hok. unfold bodyOf.
  destruct (strict_eq_str responseType "json"); now rewrite Hbody.
Qed.

Lemma make_request_unread_body_throws_witness :
  make_request (always (okText "<html>Log in</html>")) plainHost projectURL
    jsonResponse blankPage
  = (Throw SyntaxError, sent blankPage projectURL).
Proof.
  apply (make_request_unread_body_throws (always (okText "<html>Log in</html>"))
           plainHost projectURL jsonResponse blankPage
           (okText "<html>Log in</html>") SyntaxError); reflexivity.
Defined.

(** X4: when the request could not complete or the response is not OK,
    make_request does not throw, whatever the body is: it resolves to
    false or undefined and leaves an error on the status line, shown. *)
Theorem make_request_failure_is_reported :
  forall (net : Network) (h : Host) (url : string) (responseType : value)
         (p : Page),
    (forall r, net url = Some r -> ok r = false) ->
    exists (v : reply) (message : string),
      make_request net h url responseType p
      = (Return v, failedWith p url message)
      /\ truthy v = false.
Proof.
  intros net h url responseType p Hnot. rewrite make_request_outcome.
  destruct (net url) as [r|] eqn:Hnet.
  - rewrite (Hnot r eq_refl). destruct (errorMessageOf r) as [m|e].
    + exists RFalse, m. split; reflexivity.
    + exists RUndefined, "Network Error". split; reflexivity.
  - exists RUndefined, "Network Error". split; reflexivity.
Qed.

Lemma make_request_failure_is_reported_witness :
  exists (v : reply) (message : string),
    make_request (always unauthorizedHtml) plainHost projectURL jsonResponse blankPage
    = (Return v, failedWith blankPage projectURL message)
    /\ truthy v = false.
Proof.
  apply (make_request_failure_is_reported (always unauthorizedHtml) plainHost
           projectURL jsonResponse blankPage).
  intros r [= <-]. reflexivity.
Defined.

(** ** The project check *)

(** X5: the project check never throws and sends one request, to the
    project URL; its result is truthy exactly when the response is OK
    and its body parses to a truthy JSON value. *)
Theorem checkProjectExists_result :
  forall (net : Network) (h : Host) (p : Page),
    exists (v : reply) (p' : Page),
      checkProjectExists net h p = (Return v, p')
      /\ requests p' = (requests p ++ [projectURL])%list
      /\ (truthy v = true <->
          exists r j, net projectURL = Some r /\ ok r = true
                      /\ bodyJson r = Return j /\ jsonTruthy j = true).
Proof.
  intros net h p. unfold checkProjectExists, try_catch.
  rewrite make_request_outcome.
  destruct (net projectURL) as [r|] eqn:Hnet.
  - destruct (ok r) eqn:Hok.
    + unfold bodyOf, jsonResponse. simpl strict_eq_str. cbv iota.
      destruct (bodyJson r) as [j|e] eqn:Hj; simpl.
      * exists (RJson j), (sent p projectURL). repeat split.
        -- intros Ht. exists r, j. auto.
        -- intros (r' & j' & [= <-] & _ & Hj' & Ht). rewrite Hj in Hj'.
           injection Hj' as <-. exact Ht.
      * exists RFalse, (sent p projectURL). repeat split; [discriminate|].
        intros (r' & j' & [= <-] & _ & Hj' & _). congruence.
    + destruct (errorMessageOf r);
        eexists; eexists; (split; [reflexivity|]); (split; [reflexivity|]);
        (split; [discriminate|]); intros (r' & j' & [= <-] & Hok' & _); congruence.
  - exists RUndefined, (failedWith p projectURL "Network Error").
    repeat split; [discriminate|]. intros (r' & j' & H & _). discriminate.
Qed.

(** ** The query click *)

Lemma handleQueryClick_outcome (net : Network) (h : Host) (w : Popup) :
  handleQueryClick net h w
  = if negb (valid (formValid w)) then
      (Return tt,
       withPage (withResult w (resultHTML w) true)
         (noted (page w) ("ERROR. " ++ join "<br/>" (errors (formValid w)))))
    else
      match make_request net h (formURL w) jsonResponse
              (noted (page w) (searching w)) with
      | (Return r, p') =>
          if truthy r then
            match queryRows r with
            | Return rows =>
                (Return tt,
                 withPage (withResult w (queryTable rows) false)
                   (noted p' (queryTerm w)))
            | Throw e => (Throw e, withPage w p')
            end
          else (Return tt, withPage w p')
      | (Throw e, p') => (Throw e, withPage w p')
      end.
Proof.
  unfold handleQueryClick, searching, queryTerm, queryTable, formURL, formValid.
  destruct (negb (valid _)); [reflexivity|].
  unfold pbind, onPage, updateStatus, plift, pret, buildResultsTable, noted.
  cbn [page withPage].
  match goal with
  | |- context [make_request net h ?u jsonResponse ?q] =>
      destruct (make_request net h u jsonResponse q) as [[r|e] p']
  end; [|reflexivity].
  destruct (truthy r); [|reflexivity].
  destruct (queryRows r); reflexivity.
Qed.

Lemma valid_false_iff (project status days : value) :
  valid (isValid project status days) = false
  <-> falsy project \/ falsy status \/ daysRejected days.
Proof.
  rewrite isValid_messages. cbv zeta. simpl valid.
  rewrite is_nil_messages, !negb_true_iff, !ToBoolean_false_iff, daysTest_true_iff.
  tauto.
Qed.

Lemma falsy_Str (s : string) : falsy (Str s) <-> s = EmptyString.
Proof.
  unfold falsy. split.
  - intros [H|[H|[H|[H|[H|[H|H]]]]]]; try discriminate. now injection H.
  - intros ->. auto.
Qed.

(** X6: a click on the query button with an empty project or status
    field, or with a days field that is empty, not numeric or negative,
    sends no request: it hides the results container and puts the
    messages of the validator, joined with "<br/>", on the status line
    as an error. *)
Theorem handleQueryClick_rejected :
  forall (net : Network) (h : Host) (w : Popup),
    projectValue w = EmptyString \/ statusValue w = EmptyString
    \/ daysRejected (Str (daysValue w)) ->
    handleQueryClick net h w
    = (Return tt,
       withPage (withResult w (resultHTML w) true)
         (noted (page w) ("ERROR. " ++ join "<br/>" (errors (formValid w)))))
    /\ errors (formValid w) <> [].
Proof.
  intros net h w H.
  assert (Hv : valid (formValid w) = false).
  { apply valid_false_iff. rewrite !falsy_Str. exact H. }
  split.
  - rewrite handleQueryClick_outcome, Hv. reflexivity.
  - unfold formValid in *. rewrite isValid_messages in *. cbv zeta in *.
    simpl in *. destruct (messages _ _ _); [discriminate | discriminate].
Qed.

Lemma handleQueryClick_rejected_witness :
  handleQueryClick offline plainHost blankPopup
  = (Return tt,
     withPage (withResult blankPopup (resultHTML blankPopup) true)
       (noted (page blankPopup)
          ("ERROR. " ++ join "<br/>" (errors (formValid blankPopup)))))
  /\ errors (formValid blankPopup) <> [].
Proof.
  apply (handleQueryClick_rejected offline plainHost blankPopup).
  left. reflexivity.
Defined.

(** X7: a click on the query button sends a request exactly when the
    form is valid, and then exactly one, to the query URL built from the
    fields as they are typed; this holds on every path, the ones that
    throw included. *)
Theorem handleQueryClick_requests :
  forall (net : Network) (h : Host) (w : Popup),
    requests (page (snd (handleQueryClick net h w)))
    = (requests (page w)
       ++ (if valid (formValid w) then [formURL w] else []))%list.
Proof.
  intros net h w. rewrite handleQueryClick_outcome, make_request_outcome.
  destruct (valid (formValid w)); cbn [negb]; cbv iota.
  - destruct (net (formURL w)) as [r|]; [destruct (ok r)|].
    + destruct (bodyOf h r jsonResponse) as [v|e]; [|reflexivity].
      destruct (truthy v); [destruct (queryRows v)|]; reflexivity.
    + destruct (errorMessageOf r); reflexivity.
    + reflexivity.
  - simpl. now rewrite app_nil_r.
Qed.

Lemma handleQueryClick_answered (net : Network) (h : Host) (w : Popup)
  (r : Response) :
  valid (formValid w) = true ->
  net (formURL w) = Some r ->
  ok r = true ->
  handleQueryClick net h w
  = match bodyJson r with
    | Return j =>
        if jsonTruthy j then
          match queryRows (RJson j) with
          | Return rows =>
              (Return tt,
               withPage (withResult w (queryTable rows) false)
                 (noted (sent (page w) (formURL w)) (queryTerm w)))
          | Throw e =>
              (Throw e, withPage w (noted (sent (page w) (formURL w)) (searching w)))
          end
        else (Return tt, withPage w (noted (sent (page w) (formURL w)) (searching w)))
    | Throw e =>
        (Throw e, withPage w (noted (sent (page w) (formURL w)) (searching w)))
    end.
Proof.
  intros Hv Hnet Hok.
  rewrite handleQueryClick_outcome, Hv, make_request_outcome, Hnet, Hok.
  unfold bodyOf, jsonResponse. simpl strict_eq_str. cbv iota. simpl negb. cbv iota.
  destruct (bodyJson r) as [j|e]; cbn [rbind]; cbv beta iota; [|reflexivity].
  change (truthy (RJson j)) with (jsonTruthy j).
  destruct (jsonTruthy j); [|reflexivity].
  destruct (queryRows (RJson j)); reflexivity.
Qed.

(** X8: when the request of a valid query could not complete or its
    response is not OK, the handler ends without throwing, the status
    line shows an error, and the results container is left as it was:
    an earlier table stays on display. *)
Theorem handleQueryClick_failed_request :
  forall (net : Network) (h : Host) (w : Popup),
    valid (formValid w) = true ->
    (forall r, net (formURL w) = Some r -> ok r = false) ->
    exists message : string,
      handleQueryClick net h w
      = (Return tt, withPage w (failedWith (page w) (formURL w) message)).
Proof.
  intros net h w Hv Hnot.
  rewrite handleQueryClick_outcome, Hv, make_request_outcome.
  destruct (net (formURL w)) as [r|] eqn:Hnet.
  - rewrite (Hnot r eq_refl). destruct (errorMessageOf r); eexists; reflexivity.
  - eexists; reflexivity.
Qed.

Lemma handleQueryClick_failed_request_witness :
  exists message : string,
    handleQueryClick offline plainHost filledPopup
    = (Return tt,
       withPage filledPopup
         (failedWith (page filledPopup) (formURL filledPopup) message)).
Proof.
  apply (handleQueryClick_failed_request offline plainHost filledPopup).
  - reflexivity.
  - intros r H. discriminate H.
Defined.

(** X9: when the response of a valid query is OK and its body is a
    truthy JSON value whose issues can be mapped to rows, the results
    container gets the query table of these rows and is shown, and the
    status line names the query URL. *)
Theorem handleQueryClick_rendered :
  forall (net : Network) (h : Host) (w : Popup) (r : Response) (j : json)
         (rows : list string),
    valid (formValid w) = true ->
    net (formURL w) = Some r -> ok r = true ->
    bodyJson r = Return j -> jsonTruthy j = true ->
    queryRows (RJson j) = Return rows ->
    handleQueryClick net h w
    = (Return tt,
       withPage (withResult w (queryTable rows) false)
         (noted (sent (page w) (formURL w)) (queryTerm w))).
Proof.
  intros net h w r j rows Hv Hnet Hok Hj Ht Hrows.
  rewrite (handleQueryClick_answered net h w r Hv Hnet Hok), Hj, Ht, Hrows.
  reflexivity.
Qed.

Lemma handleQueryClick_rendered_witness :
  handleQueryClick (always (okJson (issuesBody [testIssue]))) plainHost filledPopup
  = (Return tt,
     withPage (withResult filledPopup (queryTable [queryItem testIssue]) false)
       (noted (sent (page filledPopup) (formURL filledPopup))
          (queryTerm filledPopup))).
Proof.
  apply (handleQueryClick_rendered (always (okJson (issuesBody [testIssue])))
           plainHost filledPopup (okJson (issuesBody [testIssue]))
           (issuesBody [testIssue]) [queryItem testIssue]); reflexivity.
Defined.

(** X10: a truthy body that is not an object, has no issues member, or
    has a falsy one (null, false, 0, an empty string) is rendered like an
    empty list of issues: the table with the row "There are no Ticket
    Status Query results". *)
Theorem handleQueryClick_no_issues :
  forall (net : Network) (h : Host) (w : Popup) (r : Response) (j : json),
    valid (formValid w) = true ->
    net (formURL w) = Some r -> ok r = true ->
    bodyJson r = Return j -> jsonTruthy j = true ->
    (forall x, getProp j "issues" = Return (Some x) -> jsonTruthy x = false) ->
    handleQueryClick net h w
    = (Return tt,
       withPage (withResult w (queryTable []) false)
         (noted (sent (page w) (formURL w)) (queryTerm w)))
    /\ occurs_in "There are no Ticket Status Query results" (queryTable []).
Proof.
  intros net h w r j Hv Hnet Hok Hj Ht Hissues. split.
  - rewrite (handleQueryClick_answered net h w r Hv Hnet Hok), Hj, Ht.
    assert (Hrows : queryRows (RJson j) = Return []); [|now rewrite Hrows].
    unfold queryRows. destruct j as [| | | |items|members]; try discriminate;
      try reflexivity.
    simpl in *. destruct (member "issues" members) as [x|]; [|reflexivity].
    now rewrite (Hissues x eq_refl).
  - unfold queryTable. rewrite resultsTable_frame. unfold tableFrame, tableBody.
    do 25 apply occurs_in_right. apply occurs_in_left.
    exists ("<tr><td colspan=" ++ dq ++ "3" ++ dq ++ ">"), "</td></tr>".
    reflexivity.
Qed.

Lemma handleQueryClick_no_issues_witness :
  handleQueryClick (always (okJson (JObject []))) plainHost filledPopup
  = (Return tt,
     withPage (withResult filledPopup (queryTable []) false)
       (noted (sent (page filledPopup) (formURL filledPopup))
          (queryTerm filledPopup)))
  /\ occurs_in "There are no Ticket Status Query results" (queryTable []).
Proof.
  apply (handleQueryClick_no_issues (always (okJson (JObject []))) plainHost
           filledPopup (okJson (JObject [])) (JObject [])); try reflexivity.
  intros x H. discriminate H.
Defined.

(** X11: when the body of an OK response is a falsy JSON value (null,
    false, 0 or an empty string) the handler renders nothing and reports
    nothing: the results container is left as it was and the status line
    keeps saying that the search is being performed. *)
Theorem handleQueryClick_falsy_body :
  forall (net : Network) (h : Host) (w : Popup) (r : Response) (j : json),
    valid (formValid w) = true ->
    net (formURL w) = Some r -> ok r = true ->
    bodyJson r = Return j -> jsonTruthy j = false ->
    handleQueryClick net h w
    = (Return tt, withPage w (noted (sent (page w) (formURL w)) (searching w))).
Proof.
  intros net h w r j Hv Hnet Hok Hj Ht.
  now rewrite (handleQueryClick_answered net h w r Hv Hnet Hok), Hj, Ht.
Qed.

Lemma handleQueryClick_falsy_body_witness :
  handleQueryClick (always (okJson JNull)) plainHost filledPopup
  = (Return tt,
     withPage filledPopup
       (noted (sent (page filledPopup) (formURL filledPopup))
          (searching filledPopup))).
Proof.
  apply (handleQueryClick_falsy_body (always (okJson JNull)) plainHost
           filledPopup (okJson JNull) JNull); reflexivity.
Defined.

(** X12: when the body of an OK response cannot be read as JSON, or its
    issues cannot be mapped (a truthy issues member that is not an
    array, a member of the array without fields or status), the handler
    throws; no error reaches the status line, which keeps saying that
    the search is being performed, and the results are left as they
    were. *)
Theorem handleQueryClick_unmapped_body_throws :
  forall (net : Network) (h : Host) (w : Popup) (r : Response) (e : error),
    valid (formValid w) = true ->
    net (formURL w) = Some r -> ok r = true ->
    bodyJson r = Throw e
    \/ (exists j, bodyJson r = Return j /\ jsonTruthy j = true
                  /\ queryRows (RJson j) = Throw e) ->
    handleQueryClick net h w
    = (Throw e, withPage w (noted (sent (page w) (formURL w)) (searching w))).
Proof.
  intros net h w r e Hv Hnet Hok H.
  rewrite (handleQueryClick_answered net h w r Hv Hnet Hok).
  destruct H as [Hj | (j & Hj & Ht & Hrows)].
  - now rewrite Hj.
  - now rewrite Hj, Ht, Hrows.
Qed.

Lemma handleQueryClick_unmapped_body_throws_witness :
  handleQueryClick (always (okJson nullIssueBody)) plainHost filledPopup
  = (Throw TypeError,
     withPage filledPopup
       (noted (sent (page filledPopup) (formURL filledPopup))
          (searching filledPopup))).
Proof.
  apply (handleQueryClick_unmapped_body_throws (always (okJson nullIssueBody))
           plainHost filledPopup (okJson nullIssueBody) TypeError);
    try reflexivity.
  right. exists nullIssueBody. repeat split.
Defined.

(** ** Issues of a response *)

Lemma valueOfJson_jsonOf (v : value) : valueOfJson (jsonOf v) = Return v.
Proof. destruct v; reflexivity. Qed.

Lemma member_memberOf_here (k : string) (v : value) (rest : list (string * json)) :
  member k rest = None -> member k (memberOf k v ++ rest)%list = jsonOf v.
Proof.
  intros Hrest. unfold memberOf. destruct (jsonOf v); simpl; rewrite Hrest.
  - now rewrite String.eqb_refl.
  - reflexivity.
Qed.

Lemma member_memberOf_other (k k' : string) (v : value)
  (rest : list (string * json)) :
  (k' =? k)%string = false ->
  member k (memberOf k' v ++ rest)%list = member k rest.
Proof.
  intros Hk. unfold memberOf. destruct (jsonOf v); simpl; [|reflexivity].
  rewrite Hk. now destruct (member k rest).
Qed.

Lemma readProp_value (members : list (string * json)) (k : string) (v : value) :
  member k members = jsonOf v ->
  rbind (readProp (Some (JObject members)) k) valueOfJson = Return v.
Proof. intros H. simpl. rewrite H. apply valueOfJson_jsonOf. Qed.

Lemma issueOfJson_jsonOfIssue (i : Issue) : issueOfJson (jsonOfIssue i) = Return i.
Proof.
  destruct i as [k [[d u n] s]]. unfold issueOfJson, jsonOfIssue.
  cbn [key fields status summary description iconUrl name].
  set (st := JObject (memberOf "description" d ++ memberOf "iconUrl" u
                      ++ memberOf "name" n)%list).
  set (fs := (("status", st) :: memberOf "summary" s)%list).
  assert (Hk : rbind (getProp (JObject (memberOf "key" k ++ [("fields", JObject fs)]))
                        "key") valueOfJson = Return k).
  { apply (readProp_value _ "key" k). now apply member_memberOf_here. }
  rewrite Hk. cbn [rbind].
  assert (Hf : getProp (JObject (memberOf "key" k ++ [("fields", JObject fs)])) "fields"
               = Return (Some (JObject fs))).
  { cbn [getProp]. now rewrite member_memberOf_other. }
  rewrite Hf. cbn [rbind].
  assert (Hst : readProp (Some (JObject fs)) "status" = Return (Some st)).
  { unfold fs, memberOf. destruct (jsonOf s); reflexivity. }
  rewrite Hst. cbn [rbind]. unfold st.
  rewrite (readProp_value _ "description" d)
    by (apply member_memberOf_here;
        rewrite member_memberOf_other by reflexivity;
        unfold memberOf; destruct (jsonOf n); reflexivity).
  cbn [rbind].
  rewrite (readProp_value _ "iconUrl" u)
    by (rewrite member_memberOf_other by reflexivity;
        apply member_memberOf_here;
        unfold memberOf; destruct (jsonOf n); reflexivity).
  cbn [rbind].
  rewrite (readProp_value _ "name" n)
    by (rewrite !member_memberOf_other by reflexivity;
        rewrite <- (app_nil_r (memberOf "name" n));
        now apply member_memberOf_here).
  cbn [rbind].
  rewrite (readProp_value _ "summary" s).
  - reflexivity.
  - unfold fs. change (("status", st) :: memberOf "summary" s)%list
      with ([("status", st)] ++ memberOf "summary" s)%list.
    unfold memberOf. destruct (jsonOf s); reflexivity.
Qed.

(** X13: the reads that buildQueryItems makes of a response are the
    inverse of the way the search response carries an issue: from the
    body {issues: [...]} of any list of issues with scalar fields (a
    field left out reads as undefined) the handler gets back the very
    issues, in order, and so the rows of buildQueryItems for them. *)
Theorem queryRows_of_issues :
  forall (members : list (string * json)) (xs : list Issue),
    member "issues" members = Some (JArray (map jsonOfIssue xs)) ->
    issuesOfJson (map jsonOfIssue xs) = Return xs
    /\ queryRows (RJson (JObject members)) = Return (buildQueryItems xs).
Proof.
  intros members xs Hm.
  assert (Hxs : issuesOfJson (map jsonOfIssue xs) = Return xs).
  { clear Hm. induction xs as [|x rest IH]; [reflexivity|].
    simpl. rewrite issueOfJson_jsonOfIssue. simpl. now rewrite IH. }
  split; [exact Hxs|].
  unfold queryRows. simpl. rewrite Hm. simpl. now rewrite Hxs.
Qed.

Lemma queryRows_of_issues_witness :
  issuesOfJson (map jsonOfIssue [testIssue]) = Return [testIssue]
  /\ queryRows (RJson (issuesBody [testIssue])) = Return (buildQueryItems [testIssue]).
Proof.
  apply (queryRows_of_issues
           [("issues", JArray (map jsonOfIssue [testIssue]));
            ("total", JNumber (Num.of_Z 1))] [testIssue]).
  reflexivity.
Defined.

(** ** The feed click *)

Lemma handleFeedClick_outcome (net : Network) (h : Host) (w : Popup) :
  handleFeedClick net h w
  = match make_request net h (feedFormURL w) Undefined
            (noted (page w) (activityQuery w)) with
    | (Return r, p') =>
        if truthy r then
          match feedRows h r with
          | Return rows =>
              (Return tt, withPage (withResult w (activityTable rows) false) p')
          | Throw e => (Throw e, withPage w p')
          end
        else (Return tt, withPage w p')
    | (Throw e, p') => (Throw e, withPage w p')
    end.
Proof.
  unfold handleFeedClick, activityQuery, activityTable, feedFormURL.
  unfold pbind, onPage, updateStatus, plift, pret, buildResultsTable, noted.
  cbn [page withPage].
  match goal with
  | |- context [make_request net h ?u Undefined ?q] =>
      destruct (make_request net h u Undefined q) as [[r|e] p']
  end; [|reflexivity].
  destruct (truthy r); [|reflexivity].
  destruct (feedRows h r); reflexivity.
Qed.

(** X14: a click on the feed button validates nothing: whatever the user
    field holds, the empty string included, it sends exactly one request,
    to the feed URL built from the field as it is; this holds on every
    path, the ones that throw included. *)
Theorem handleFeedClick_requests :
  forall (net : Network) (h : Host) (w : Popup),
    requests (page (snd (handleFeedClick net h w)))
    = (requests (page w) ++ [feedURL (Str (userValue w))])%list.
Proof.
  intros net h w. rewrite handleFeedClick_outcome, make_request_outcome.
  destruct (net (feedFormURL w)) as [r|]; [destruct (ok r)|].
  - destruct (bodyOf h r Undefined) as [v|e]; [|reflexivity].
    destruct (truthy v); [destruct (feedRows h v)|]; reflexivity.
  - destruct (errorMessageOf r); reflexivity.
  - reflexivity.
Qed.

Lemma handleFeedClick_answered (net : Network) (h : Host) (w : Popup)
  (r : Response) :
  net (feedFormURL w) = Some r ->
  ok r = true ->
  handleFeedClick net h w
  = match bodyText r with
    | Return t =>
        match buildFeedItems h (parseXML h t) with
        | Return rows =>
            (Return tt,
             withPage (withResult w (activityTable rows) false)
               (noted (sent (page w) (feedFormURL w)) (activityQuery w)))
        | Throw e =>
            (Throw e,
             withPage w (noted (sent (page w) (feedFormURL w)) (activityQuery w)))
        end
    | Throw e =>
        (Throw e,
         withPage w (noted (sent (page w) (feedFormURL w)) (activityQuery w)))
    end.
Proof.
  intros Hnet Hok.
  rewrite handleFeedClick_outcome, make_request_outcome, Hnet, Hok.
  unfold bodyOf. simpl strict_eq_str. cbv iota.
  destruct (bodyText r) as [t|e]; cbn [rbind]; cbv beta iota; [|reflexivity].
  cbn [truthy feedRows]. cbv iota.
  destruct (buildFeedItems h (parseXML h t)); reflexivity.
Qed.

(** X15: when the response of the feed request is OK and the document
    parsed from its text can be mapped, the results container gets the
    activity table of the rows (the header Date, Activity) and is shown;
    the status line keeps the line "Activity query: <url>" written
    before the request. *)
Theorem handleFeedClick_rendered :
  forall (net : Network) (h : Host) (w : Popup) (r : Response) (t : string)
         (rows : list string),
    net (feedFormURL w) = Some r -> ok r = true ->
    bodyText r = Return t ->
    buildFeedItems h (parseXML h t) = Return rows ->
    handleFeedClick net h w
    = (Return tt,
       withPage (withResult w (activityTable rows) false)
         (noted (sent (page w) (feedFormURL w)) (activityQuery w)))
    /\ occurs_in activityHeader (activityTable rows).
Proof.
  intros net h w r t rows Hnet Hok Ht Hrows. split.
  - now rewrite (handleFeedClick_answered net h w r Hnet Hok), Ht, Hrows.
  - unfold activityTable. rewrite resultsTable_frame. unfold tableFrame.
    do 15 apply occurs_in_right. apply occurs_in_here.
Qed.

Lemma handleFeedClick_rendered_witness :
  handleFeedClick (always (okText "<feed>...</feed>")) (feedHost feedOfOne) filledPopup
  = (Return tt,
     withPage
       (withResult filledPopup
          (activityTable [entryRow (feedHost feedOfOne) completeEntry]) false)
       (noted (sent (page filledPopup) (feedFormURL filledPopup))
          (activityQuery filledPopup)))
  /\ occurs_in activityHeader
       (activityTable [entryRow (feedHost feedOfOne) completeEntry]).
Proof.
  apply (handleFeedClick_rendered (always (okText "<feed>...</feed>"))
           (feedHost feedOfOne) filledPopup (okText "<feed>...</feed>")
           "<feed>...</feed>" [entryRow (feedHost feedOfOne) completeEntry]);
    reflexivity.
Defined.

(** X16: when the document of an OK feed response cannot be mapped (no
    feed element, or an entry without title or updated element), or the
    text of the body cannot be read, the handler throws; no error reaches
    the status line, which keeps the line "Activity query: <url>", and
    the results container is left as it was. *)
Theorem handleFeedClick_unmapped_feed_throws :
  forall (net : Network) (h : Host) (w : Popup) (r : Response) (e : error),
    net (feedFormURL w) = Some r -> ok r = true ->
    bodyText r = Throw e
    \/ (exists t, bodyText r = Return t
                  /\ buildFeedItems h (parseXML h t) = Throw e) ->
    handleFeedClick net h w
    = (Throw e,
       withPage w (noted (sent (page w) (feedFormURL w)) (activityQuery w))).
Proof.
  intros net h w r e Hnet Hok H.
  rewrite (handleFeedClick_answered net h w r Hnet Hok).
  destruct H as [Ht | (t & Ht & Hrows)].
  - now rewrite Ht.
  - now rewrite Ht, Hrows.
Qed.

Lemma handleFeedClick_unmapped_feed_throws_witness :
  handleFeedClick (always (okText "<rss/>")) (feedHost feedWithoutTitle) filledPopup
  = (Throw TypeError,
     withPage filledPopup
       (noted (sent (page filledPopup) (feedFormURL filledPopup))
          (activityQuery filledPopup))).
Proof.
  apply (handleFeedClick_unmapped_feed_throws (always (okText "<rss/>"))
           (feedHost feedWithoutTitle) filledPopup (okText "<rss/>") TypeError);
    try reflexivity.
  right. exists "<rss/>". split; reflexivity.
Defined.

(** X17: when the feed request could not complete or its response is not
    OK, the handler ends without throwing, the status line shows an
    error instead of the activity line, and the results container is
    left as it was. *)
Theorem handleFeedClick_failed_request :
  forall (net : Network) (h : Host) (w : Popup),
    (forall r, net (feedFormURL w) = Some r -> ok r = false) ->
    exists message : string,
      handleFeedClick net h w
      = (Return tt, withPage w (failedWith (page w) (feedFormURL w) message)).
Proof.
  intros net h w Hnot.
  rewrite handleFeedClick_outcome, make_request_outcome.
  destruct (net (feedFormURL w)) as [r|] eqn:Hnet.
  - rewrite (Hnot r eq_refl). destruct (errorMessageOf r); eexists; reflexivity.
  - eexists; reflexivity.
Qed.

Lemma handleFeedClick_failed_request_witness :
  exists message : string,
    handleFeedClick (always badRequest) plainHost filledPopup
    = (Return tt,
       withPage filledPopup
         (failedWith (page filledPopup) (feedFormURL filledPopup) message)).
Proof.
  apply (handleFeedClick_failed_request (always badRequest) plainHost filledPopup).
  intros r [= <-]. reflexivity.
Defined.

(** ** Start-up *)

Lemma checkProjectExists_outcome (net : Network) (h : Host) (p : Page) :
  checkProjectExists net h p
  = match net projectURL with
    | None => (Return RUndefined, failedWith p projectURL "Network Error")
    | Some r =>
        if ok r then
          match bodyJson r with
          | Return j => (Return (RJson j), sent p projectURL)
          | Throw _ => (Return RFalse, sent p projectURL)
          end
        else match errorMessageOf r with
             | Return message => (Return RFalse, failedWith p projectURL message)
             | Throw _ => (Return RUndefined, failedWith p projectURL "Network Error")
             end
    end.
Proof.
  unfold checkProjectExists, try_catch. rewrite make_request_outcome.
  destruct (net projectURL) as [r|]; [|reflexivity].
  destruct (ok r).
  - unfold bodyOf, jsonResponse. simpl strict_eq_str. cbv iota.
    destruct (bodyJson r); reflexivity.
  - destruct (errorMessageOf r); reflexivity.
Qed.

Lemma handleContentLoaded_outcome (net : Network) (h : Host) (store : Storage)
  (w : Popup) :
  handleContentLoaded net h store w
  = match checkProjectExists net h (page w) with
    | (Return v, p') =>
        if truthy v then (Return tt, ready w p' store)
        else (Return tt, withPage w p')
    | (Throw e, p') => (Throw e, withPage w p')
    end.
Proof.
  unfold handleContentLoaded, pbind, onPage, pret, loadOptions.
  destruct (checkProjectExists net h (page w)) as [[v|e] p']; [|reflexivity].
  destruct (truthy v); reflexivity.
Qed.

(** X18: when the project check gets an OK response with a truthy JSON
    body, start-up fills the project and user fields from the store,
    with "Sunshine" and "nyx.linden" for what is not stored, sets the
    days field to "1" and binds both click handlers; the status line and
    the results container are left as they were. *)
Theorem handleContentLoaded_ready :
  forall (net : Network) (h : Host) (store : Storage) (w : Popup)
         (r : Response) (j : json),
    net projectURL = Some r -> ok r = true ->
    bodyJson r = Return j -> jsonTruthy j = true ->
    handleContentLoaded net h store w
    = (Return tt, ready w (sent (page w) projectURL) store)
    /\ (store "project" = None ->
        projectValue (ready w (sent (page w) projectURL) store) = "Sunshine")
    /\ (store "user" = None ->
        userValue (ready w (sent (page w) projectURL) store) = "nyx.linden").
Proof.
  intros net h store w r j Hnet Hok Hj Ht. repeat split.
  - rewrite handleContentLoaded_outcome, checkProjectExists_outcome, Hnet, Hok, Hj.
    simpl truthy. now rewrite Ht.
  - intros Hs. simpl. unfold stored. now rewrite Hs.
  - intros Hs. simpl. unfold stored. now rewrite Hs.
Qed.

Lemma handleContentLoaded_ready_witness :
  handleContentLoaded (always (okJson (JObject [("key", JString "SUN")])))
    plainHost emptyStore blankPopup
  = (Return tt, ready blankPopup (sent (page blankPopup) projectURL) emptyStore)
  /\ projectValue (ready blankPopup (sent (page blankPopup) projectURL) emptyStore)
     = "Sunshine"
  /\ userValue (ready blankPopup (sent (page blankPopup) projectURL) emptyStore)
     = "nyx.linden".
Proof.
  destruct (handleContentLoaded_ready
              (always (okJson (JObject [("key", JString "SUN")])))
              plainHost emptyStore blankPopup
              (okJson (JObject [("key", JString "SUN")]))
              (JObject [("key", JString "SUN")])
              eq_refl eq_refl eq_refl eq_refl) as (H1 & H2 & H3).
  split; [exact H1|]. split; [apply H2 | apply H3]; reflexivity.
Defined.

(** X19: when the project check fails, start-up sets nothing up: no
    field is filled and no click handler is bound.  It is silent when
    the response is OK and its body is not JSON or is a falsy value, but
    when the request could not complete or the response is not OK it
    leaves the error of the request on the status line. *)
Theorem handleContentLoaded_not_ready :
  forall (net : Network) (h : Host) (store : Storage) (w : Popup),
    ((forall r, net projectURL = Some r -> ok r = false) ->
     exists message : string,
       handleContentLoaded net h store w
       = (Return tt, withPage w (failedWith (page w) projectURL message)))
    /\ (forall r, net projectURL = Some r -> ok r = true ->
          (forall j, bodyJson r = Return j -> jsonTruthy j = false) ->
          handleContentLoaded net h store w
          = (Return tt, withPage w (sent (page w) projectURL))).
Proof.
  intros net h store w. split.
  - intros Hnot. rewrite handleContentLoaded_outcome, checkProjectExists_outcome.
    destruct (net projectURL) as [r|] eqn:Hnet.
    + rewrite (Hnot r eq_refl). destruct (errorMessageOf r); eexists; reflexivity.
    + eexists; reflexivity.
  - intros r Hnet Hok Hbody.
    rewrite handleContentLoaded_outcome, checkProjectExists_outcome, Hnet, Hok.
    destruct (bodyJson r) as [j|e]; [|reflexivity].
    simpl truthy. now rewrite (Hbody j eq_refl).
Qed.

Lemma handleContentLoaded_not_ready_witness :
  (exists message : string,
     handleContentLoaded offline plainHost emptyStore blankPopup
     = (Return tt,
        withPage blankPopup (failedWith (page blankPopup) projectURL message)))
  /\ handleContentLoaded (always (okText "<html>Log in</html>")) plainHost
       emptyStore blankPopup
     = (Return tt, withPage blankPopup (sent (page blankPopup) projectURL)).
Proof.
  split.
  - apply (proj1 (handleContentLoaded_not_ready offline plainHost emptyStore
                    blankPopup)).
    intros r H. discriminate H.
  - apply (proj2 (handleContentLoaded_not_ready
                    (always (okText "<html>Log in</html>")) plainHost emptyStore
                    blankPopup) (okText "<html>Log in</html>") eq_refl eq_refl).
    intros j H. discriminate H.
Defined.

(** X20: start-up never throws, whatever the network and the store are,
    and it sends exactly one request, the project check; the click
    handlers are bound together or not at all, and a handler already
    bound is never unbound. *)
Theorem handleContentLoaded_total :
  forall (net : Network) (h : Host) (store : Storage) (w : Popup),
    exists w' : Popup,
      handleContentLoaded net h store w = (Return tt, w')
      /\ requests (page w') = (requests (page w) ++ [projectURL])%list
      /\ ((queryBound w' = true /\ feedBound w' = true)
          \/ (queryBound w' = queryBound w /\ feedBound w' = feedBound w)).
Proof.
  intros net h store w.
  rewrite handleContentLoaded_outcome, checkProjectExists_outcome.
  destruct (net projectURL) as [r|].
  - destruct (ok r).
    + destruct (bodyJson r) as [j|e].
      * simpl truthy. destruct (jsonTruthy j); eexists; repeat split; auto.
      * eexists; repeat split; auto.
    + destruct (errorMessageOf r); eexists; repeat split; auto.
  - eexists; repeat split; auto.
Qed.

(** ** The validator on form fields *)

(** X21: on the strings of the form the validator accepts exactly when
    the project and the status are not empty and the days are not
    empty, numeric and not negative.  The status is tested for nothing
    else: any non-empty string passes, "0" included, although the number
    0 does not. *)
Theorem isValid_form_strings :
  forall project status days : string,
    (valid (isValid (Str project) (Str status) (Str days)) = true
     <-> project <> EmptyString /\ status <> EmptyString /\ days <> EmptyString
         /\ ~ notNumeric (Str days) /\ ~ negative (Str days))
    /\ (status <> EmptyString ->
        ~ In invalidStatus (errors (isValid (Str project) (Str status) (Str days)))).
Proof.
  intros project status days. split.
  - pose proof (valid_false_iff (Str project) (Str status) (Str days)) as H.
    rewrite !falsy_Str in H. unfold daysRejected in H.
    destruct (valid (isValid (Str project) (Str status) (Str days))).
    + split; [intros _ | reflexivity].
      assert (Hn : ~ (project = "" \/ status = ""
                      \/ Str days = Str "" \/ notNumeric (Str days)
                      \/ negative (Str days)))
        by (intros Hc; apply H in Hc; discriminate).
      repeat split; intros Hc; apply Hn; subst; auto 6.
    + split; [discriminate|]. intros (Hp & Hs & Hd & Hnn & Hneg).
      destruct (proj1 H eq_refl) as [Hc|[Hc|[Hc|[Hc|Hc]]]]; try contradiction.
      injection Hc as ->. contradiction.
  - intros Hs Hin. rewrite isValid_messages in Hin. cbv zeta in Hin.
    cbn [errors] in Hin.
    apply In_messages in Hin. apply negb_true_iff, ToBoolean_false_iff, falsy_Str in Hin.
    contradiction.
Qed.

Lemma trim_start_app_ws (a s : string) :
  all_ws a = true -> trim_start (a ++ s) = trim_start s.
Proof.
  induction a as [|c a IH]; simpl; [reflexivity|].
  intros H. apply andb_true_iff in H as [Hc Ha]. rewrite Hc. auto.
Qed.

Lemma trim_end_all_ws (b : string) : all_ws b = true -> trim_end b = EmptyString.
Proof.
  induction b as [|c b IH]; simpl; [reflexivity|].
  intros H. apply andb_true_iff in H as [Hc Hb]. now rewrite (IH Hb), Hc.
Qed.

Lemma trim_end_app_ws (s b : string) :
  all_ws b = true -> trim_end (s ++ b) = trim_end s.
Proof.
  intros Hb. induction s as [|c s IH]; simpl.
  - now apply trim_end_all_ws.
  - now rewrite IH.
Qed.

Lemma trim_padded (a s b : string) :
  all_ws a = true -> all_ws b = true -> trim (a ++ s ++ b) = trim s.
Proof.
  intros Ha Hb. unfold trim. rewrite trim_start_app_ws by exact Ha.
  induction s as [|c s IH]; simpl.
  - now rewrite (trim_start_all_ws b Hb).
  - destruct (is_ws c); [exact IH|].
    change (String c (s ++ b)) with (String c s ++ b).
    now apply trim_end_app_ws.
Qed.

(** X22: white space around the days does not change what the validator
    says: for a non-empty days string, the result is the same with any
    white space before and after it. *)
Theorem isValid_padded_days :
  forall (project status : value) (before days after : string),
    all_ws before = true -> all_ws after = true -> days <> EmptyString ->
    isValid project status (Str (before ++ days ++ after))
    = isValid project status (Str days).
Proof.
  intros project status a d b Ha Hb Hd.
  rewrite !isValid_messages. cbv zeta.
  assert (Hn : Num.of_string (a ++ d ++ b) = Num.of_string d)
    by (unfold Num.of_string; now rewrite trim_padded).
  assert (Ht : daysTest (Str (a ++ d ++ b)) = daysTest (Str d)).
  { unfold daysTest. rewrite !lt_zero. unfold isNaN. simpl ToNumber. rewrite Hn.
    f_equal. f_equal. simpl.
    destruct d as [|c d]; [congruence|].
    destruct a; reflexivity. }
  now rewrite Ht.
Qed.

Lemma isValid_padded_days_witness :
  isValid (Str "Sunshine") (Str "1") (Str (" " ++ "7" ++ "  "))
  = isValid (Str "Sunshine") (Str "1") (Str "7").
Proof.
  apply (isValid_padded_days (Str "Sunshine") (Str "1") " " "7" "  ");
    [reflexivity | reflexivity | discriminate].
Defined.

(** ** Numbers and their digits *)

Lemma number_eqb_eq (x y : Num.number) : number_eqb x y = true -> x = y.
Proof.
  destruct x as [s|s| |s m e], y as [s'|s'| |s' m' e']; simpl; try discriminate;
    try reflexivity.
  - intros H. apply Bool.eqb_prop in H. now subst.
  - intros H. apply Bool.eqb_prop in H. now subst.
  - intros H. apply andb_true_iff in H as [H He].
    apply andb_true_iff in H as [Hs Hm].
    apply Bool.eqb_prop in Hs. apply Pos.eqb_eq in Hm. apply Z.eqb_eq in He.
    now subst.
Qed.

Lemma printsAsDecimal_below_1000 :
  forallb printsAsDecimal (seq 0 1000) = true.
Proof. vm_compute. reflexivity. Qed.

Lemma small_number (n : nat) :
  (n < 1000)%nat ->
  ToString (num (Z.of_nat n)) = decimal n
  /\ ToNumber (Str (decimal n)) = ToNumber (num (Z.of_nat n))
  /\ decimal n <> EmptyString.
Proof.
  intros Hn.
  assert (Hin : In n (seq 0 1000)) by (apply in_seq; lia).
  pose proof (proj1 (forallb_forall _ _) printsAsDecimal_below_1000 n Hin) as H.
  unfold printsAsDecimal in H.
  apply andb_true_iff in H as [H Hne]. apply andb_true_iff in H as [Hs Hv].
  apply String.eqb_eq in Hs. apply number_eqb_eq in Hv.
  repeat split; auto.
  intros Hc. rewrite Hc in Hne. discriminate.
Qed.

(** X23: for a status and a number of days below 1000 it makes no
    difference to the query URL whether they are passed as numbers, as
    the test-suite does, or as their decimal strings, as the click
    handler does; and the validator gives the same result for the days
    as a number and as its decimal string. *)
Theorem numbers_and_their_digits :
  forall (project status : value) (s d : nat),
    (s < 1000)%nat -> (d < 1000)%nat ->
    queryURL project (num (Z.of_nat s)) (num (Z.of_nat d)) Undefined
    = queryURL project (Str (decimal s)) (Str (decimal d)) Undefined
    /\ isValid project status (num (Z.of_nat d))
       = isValid project status (Str (decimal d)).
Proof.
  intros project status s d Hs Hd.
  destruct (small_number s Hs) as (Hss & _ & _).
  destruct (small_number d Hd) as (Hds & Hdn & Hde).
  split.
  - unfold queryURL. cbv zeta. rewrite Hss, Hds. reflexivity.
  - rewrite !isValid_messages. cbv zeta.
    assert (Ht : daysTest (num (Z.of_nat d)) = daysTest (Str (decimal d))).
    { unfold daysTest. rewrite !lt_zero. unfold isNaN. rewrite Hdn.
      f_equal. f_equal. simpl. destruct (decimal d); [congruence | reflexivity]. }
    now rewrite Ht.
Qed.

Lemma numbers_and_their_digits_witness :
  queryURL (Str "Sunshine") (num (Z.of_nat 3)) (num (Z.of_nat 14)) Undefined
  = queryURL (Str "Sunshine") (Str (decimal 3)) (Str (decimal 14)) Undefined
  /\ isValid (Str "Sunshine") (num 3) (num (Z.of_nat 14))
     = isValid (Str "Sunshine") (num 3) (Str (decimal 14)).
Proof.
  apply (numbers_and_their_digits (Str "Sunshine") (num 3) 3 14); lia.
Defined.
